(** * Serial Studio: the frame builder (app/src/JSON/FrameBuilder.cpp)

    A shallow embedding of [JSON::FrameBuilder]: loading a JSON project map,
    selecting the operation mode and turning the bytes of one received frame
    into a [JSON::Frame] that is handed to the rest of the application.

    The class is a singleton that talks to other singletons (the I/O manager,
    the CSV player, the project model) and to Qt ([QSettings], [QFile],
    signals).  All of that is one [World] value here; every member function is
    a computation in a state monad over [World], and everything the outside
    can observe (signals, message boxes, calls to the I/O manager, writes to
    the settings) is appended, in program order, to the [trace] of the world. *)

From Stdlib Require Import ZArith String Ascii List Bool Lia DecimalString DecimalPos DecimalZ.
From stdpp Require Import base option list strings gmap.

Local Open Scope string_scope.
Local Open Scope Z_scope.

(** ** Qt values *)

(** A [QByteArray] is a sequence of 8-bit characters, a [QString] a text.
    Both are Rocq strings (one [ascii] per byte); a [QString] is held by its
    UTF-8 encoding. *)
Definition QByteArray := string.
Definition QString := string.
Definition QStringList := list QString.

Definition QByteArray_isEmpty (b : QByteArray) : bool :=
  match b with EmptyString => true | String _ _ => false end.

Definition QString_isEmpty (s : QString) : bool :=
  match s with EmptyString => true | String _ _ => false end.

(** [QByteArray::split(sep)] and [QString::split(sep)] (empty parts kept, the
    default): the pieces between the occurrences of [sep].  A text without
    [sep], the empty one included, is one piece. *)
Fixpoint split (sep : ascii) (s : string) : list string :=
  match s with
  | EmptyString => [EmptyString]
  | String c rest =>
      if Ascii.eqb c sep then EmptyString :: split sep rest
      else match split sep rest with
           | piece :: pieces => String c piece :: pieces
           | [] => [String c EmptyString]
           end
  end.

Definition comma : ascii := ","%char.

(** The spacing characters of [isspace] in the C locale: tabulation, line
    feed, vertical tabulation, form feed, carriage return and space. *)
Definition isspace (c : ascii) : bool :=
  let n := nat_of_ascii c in
  ((9 <=? n)%nat && (n <=? 13)%nat) || (n =? 32)%nat.

(** [QByteArray::simplified()]: spacing characters are removed from both
    ends and every internal run of them becomes one space. *)
Inductive SimplifyState := AtStart | InWord | InGap.

Fixpoint simplified_from (st : SimplifyState) (s : string) : string :=
  match s with
  | EmptyString => EmptyString
  | String c rest =>
      if isspace c then
        simplified_from (match st with AtStart => AtStart | _ => InGap end) rest
      else
        match st with
        | InGap => String " "%char (String c (simplified_from InWord rest))
        | _ => String c (simplified_from InWord rest)
        end
  end.

Definition simplified (b : QByteArray) : QByteArray := simplified_from AtStart b.

(** [QString::arg(int)] on ["... %1"]: the number in decimal. *)
Definition number (n : Z) : QString := NilZero.string_of_int (Z.to_int n).

(** [tr] looks a text up in the loaded translation; without one it is the
    text itself. *)
Definition tr (s : QString) : QString := s.

(** ** The frame model (JSON/Frame.h, Group.h, Dataset.h) *)

(** Modelled from the spec: the classes [JSON::Dataset], [JSON::Group] and
    [JSON::Frame] are declared outside FrameBuilder.cpp.  The members are the
    ones FrameBuilder.cpp reads and writes ([m_groupId], [m_index], [m_title],
    [m_value], [m_graph], [m_displayInOverview], [m_widget], [m_datasets],
    [m_groups], [frameStart()], [frameEnd()]), with the types of the data
    model; a freshly constructed object has empty texts, index 0 (unassigned)
    and cleared flags. *)
Module Dataset.
Record t := mk {
  m_groupId : Z;
  m_index : Z;
  m_title : QString;
  m_value : QString;
  m_widget : QString;
  m_graph : bool;
  m_displayInOverview : bool
}.

Definition new : t := mk 0 0 "" "" "" false false.

Definition index (d : t) : Z := m_index d.

Definition set_groupId (v : Z) (d : t) : t :=
  mk v (m_index d) (m_title d) (m_value d) (m_widget d) (m_graph d) (m_displayInOverview d).
Definition set_index (v : Z) (d : t) : t :=
  mk (m_groupId d) v (m_title d) (m_value d) (m_widget d) (m_graph d) (m_displayInOverview d).
Definition set_title (v : QString) (d : t) : t :=
  mk (m_groupId d) (m_index d) v (m_value d) (m_widget d) (m_graph d) (m_displayInOverview d).
Definition set_value (v : QString) (d : t) : t :=
  mk (m_groupId d) (m_index d) (m_title d) v (m_widget d) (m_graph d) (m_displayInOverview d).
Definition set_graph (v : bool) (d : t) : t :=
  mk (m_groupId d) (m_index d) (m_title d) (m_value d) (m_widget d) v (m_displayInOverview d).
Definition set_displayInOverview (v : bool) (d : t) : t :=
  mk (m_groupId d) (m_index d) (m_title d) (m_value d) (m_widget d) (m_graph d) v.
End Dataset.

Module Group.
Record t := mk {
  m_groupId : Z;
  m_title : QString;
  m_widget : QString;
  m_datasets : list Dataset.t
}.

(** [JSON::Group group(id)] *)
Definition new (id : Z) : t := mk id "" "" [].

Definition datasetCount (g : t) : Z := Z.of_nat (length (m_datasets g)).

Definition set_title (v : QString) (g : t) : t :=
  mk (m_groupId g) v (m_widget g) (m_datasets g).
Definition set_widget (v : QString) (g : t) : t :=
  mk (m_groupId g) (m_title g) v (m_datasets g).
Definition set_datasets (v : list Dataset.t) (g : t) : t :=
  mk (m_groupId g) (m_title g) (m_widget g) v.
End Group.

Module Frame.
Record t := mk {
  m_title : QString;
  m_groups : list Group.t;
  m_frameStart : QString;
  m_frameEnd : QString
}.

(** [JSON::Frame frame;] and the frame left by [clear()] *)
Definition new : t := mk "" [] "" "".
Definition clear (f : t) : t := new.

Definition groupCount (f : t) : Z := Z.of_nat (length (m_groups f)).
Definition frameStart (f : t) : QString := m_frameStart f.
Definition frameEnd (f : t) : QString := m_frameEnd f.

Definition set_title (v : QString) (f : t) : t :=
  mk v (m_groups f) (m_frameStart f) (m_frameEnd f).
Definition set_groups (v : list Group.t) (f : t) : t :=
  mk (m_title f) v (m_frameStart f) (m_frameEnd f).
End Frame.

(** ** Arrays updated in place *)

(** [xs[i] = f(xs[i])] through a reference [auto &x = xs[i]].  The loops
    below only use positions below the size; outside, nothing is written. *)
Definition modify_at {A} (i : nat) (f : A → A) (xs : list A) : list A :=
  match xs !! i with
  | Some x => <[i := f x]> xs
  | None => xs
  end.

(** [for (int i = from; i < xs.count(); ++i) xs = body(i, xs);] with the
    bound read again before every round, as in the source.  [rounds] bounds
    the number of rounds; the callers pass the size of the array, which is
    enough because no loop body changes the size ([for_each_index_runs]). *)
Fixpoint for_each_index {A} (rounds : nat) (from : nat)
    (body : nat → list A → list A) (xs : list A) : list A :=
  match rounds with
  | O => xs
  | S rounds' =>
      if (from <? length xs)%nat
      then for_each_index rounds' (S from) body (body from xs)
      else xs
  end.

(** ** The world of the frame builder *)

(** [SerialStudio::OperationMode] and [SerialStudio::DecoderMethod].  The
    enumerations are declared in SerialStudio.h; the constructor of the
    builder casts a stored integer to a mode and both [switch] statements have
    a [default] branch, so a value outside the named ones is a value too. *)
Inductive OperationMode :=
  | ProjectFile
  | DeviceSendsJSON
  | QuickPlot
  | InvalidMode (raw : Z).

Inductive DecoderMethod :=
  | PlainText
  | Hexadecimal
  | Base64
  | InvalidDecoder (raw : Z).

Global Instance OperationMode_eq_dec : EqDecision OperationMode.
Proof. solve_decision. Defined.

(** What [QSettings] stores under a key. *)
Inductive QVariant :=
  | QvString (s : QString)
  | QvMode (mode : OperationMode).

(** [QFile]: the name it was given and whether it is open. *)
Record QFile := mkQFile {
  fileName : QString;
  isOpen : bool
}.

(** [JSON::FrameParser::parse]: the registered parser turns the text of a
    frame into its fields. *)
Definition FrameParser := QString → QStringList.

(** Everything the rest of the application can observe, in program order. *)
Inductive Effect :=
  | Emit_jsonFileMapChanged
  | Emit_operationModeChanged
  | Emit_frameChanged (frame : Frame.t)
  | IO_setStartSequence (sequence : QString)
  | IO_setFinishSequence (sequence : QString)
  | Settings_setValue (key : string) (value : QVariant)
  | ShowMessageBox (title text : QString)
  | QWarning (text : QString) (mode : OperationMode).

Record World := mkWorld {
  (* members of JSON::FrameBuilder *)
  m_opMode : OperationMode;
  m_frameParser : option FrameParser;
  m_frame : Frame.t;
  m_jsonMap : QFile;
  m_settings : gmap string QVariant;
  (* IO::Manager, CSV::Player and JSON::ProjectModel *)
  io_startSequence : QString;
  io_finishSequence : QString;
  csvPlayer_isOpen : bool;
  projectModel_decoderMethod : DecoderMethod;
  (* the files that can be opened for reading, with their contents *)
  files : QString → option QByteArray;
  (* what has been observed so far, oldest first *)
  trace : list Effect
}.

Definition with_opMode (v : OperationMode) (w : World) : World :=
  mkWorld v (m_frameParser w) (m_frame w) (m_jsonMap w) (m_settings w)
    (io_startSequence w) (io_finishSequence w) (csvPlayer_isOpen w)
    (projectModel_decoderMethod w) (files w) (trace w).
Definition with_frameParser (v : option FrameParser) (w : World) : World :=
  mkWorld (m_opMode w) v (m_frame w) (m_jsonMap w) (m_settings w)
    (io_startSequence w) (io_finishSequence w) (csvPlayer_isOpen w)
    (projectModel_decoderMethod w) (files w) (trace w).
Definition with_frame (v : Frame.t) (w : World) : World :=
  mkWorld (m_opMode w) (m_frameParser w) v (m_jsonMap w) (m_settings w)
    (io_startSequence w) (io_finishSequence w) (csvPlayer_isOpen w)
    (projectModel_decoderMethod w) (files w) (trace w).
Definition with_jsonMap (v : QFile) (w : World) : World :=
  mkWorld (m_opMode w) (m_frameParser w) (m_frame w) v (m_settings w)
    (io_startSequence w) (io_finishSequence w) (csvPlayer_isOpen w)
    (projectModel_decoderMethod w) (files w) (trace w).
Definition with_settings (v : gmap string QVariant) (w : World) : World :=
  mkWorld (m_opMode w) (m_frameParser w) (m_frame w) (m_jsonMap w) v
    (io_startSequence w) (io_finishSequence w) (csvPlayer_isOpen w)
    (projectModel_decoderMethod w) (files w) (trace w).
Definition with_startSequence (v : QString) (w : World) : World :=
  mkWorld (m_opMode w) (m_frameParser w) (m_frame w) (m_jsonMap w) (m_settings w)
    v (io_finishSequence w) (csvPlayer_isOpen w)
    (projectModel_decoderMethod w) (files w) (trace w).
Definition with_finishSequence (v : QString) (w : World) : World :=
  mkWorld (m_opMode w) (m_frameParser w) (m_frame w) (m_jsonMap w) (m_settings w)
    (io_startSequence w) v (csvPlayer_isOpen w)
    (projectModel_decoderMethod w) (files w) (trace w).
Definition with_trace (v : list Effect) (w : World) : World :=
  mkWorld (m_opMode w) (m_frameParser w) (m_frame w) (m_jsonMap w) (m_settings w)
    (io_startSequence w) (io_finishSequence w) (csvPlayer_isOpen w)
    (projectModel_decoderMethod w) (files w) v.

(** ** The monad of member functions *)

Definition M (A : Type) : Type := World → A * World.

Global Instance M_ret : MRet M := λ A x w, (x, w).
Global Instance M_bind : MBind M := λ A B k m w, let (x, w') := m w in k x w'.

Definition gets {A} (f : World → A) : M A := λ w, (f w, w).
Definition modify (f : World → World) : M unit := λ w, (tt, f w).
Definition skip : M unit := mret tt.

(** The world a member function leaves. *)
Definition exec (m : M unit) (w : World) : World := snd (m w).

(** The effects observed while going from [w] to [w']. *)
Definition observed (w w' : World) (es : list Effect) : Prop :=
  trace w' = (trace w ++ es)%list.

Definition log (e : Effect) : M unit := modify (λ w, with_trace (trace w ++ [e])%list w).

(** Signals *)
Definition emit_jsonFileMapChanged : M unit := log Emit_jsonFileMapChanged.
Definition emit_operationModeChanged : M unit := log Emit_operationModeChanged.
Definition emit_frameChanged (frame : Frame.t) : M unit := log (Emit_frameChanged frame).

(** [IO::Manager::instance().setStartSequence / setFinishSequence] *)
Definition io_setStartSequence (s : QString) : M unit :=
  modify (with_startSequence s);; log (IO_setStartSequence s).
Definition io_setFinishSequence (s : QString) : M unit :=
  modify (with_finishSequence s);; log (IO_setFinishSequence s).

(** [m_settings.setValue(key, value)] *)
Definition settings_setValue (key : string) (value : QVariant) : M unit :=
  modify (λ w, with_settings (<[key := value]> (m_settings w)) w);;
  log (Settings_setValue key value).

(** [Misc::Utilities::showMessageBox] and [qWarning] *)
Definition showMessageBox (title text : QString) : M unit := log (ShowMessageBox title text).
Definition qWarning (text : QString) (mode : OperationMode) : M unit := log (QWarning text mode).

(** [m_jsonMap]: [isOpen], [setFileName], [open(QFile::ReadOnly)], [readAll]
    and [close]. *)
Definition jsonMap_isOpen : M bool := gets (λ w, isOpen (m_jsonMap w)).
Definition jsonMap_setFileName (name : QString) : M unit :=
  modify (λ w, with_jsonMap (mkQFile name (isOpen (m_jsonMap w))) w).
Definition jsonMap_open : M bool := λ w,
  match files w (fileName (m_jsonMap w)) with
  | Some _ => (true, with_jsonMap (mkQFile (fileName (m_jsonMap w)) true) w)
  | None => (false, w)
  end.
Definition jsonMap_readAll : M QByteArray :=
  gets (λ w, default EmptyString (files w (fileName (m_jsonMap w)))).
Definition jsonMap_close : M unit :=
  modify (λ w, with_jsonMap (mkQFile (fileName (m_jsonMap w)) false) w).

(** [m_frame.clear()] *)
Definition frame_clear : M unit := modify (λ w, with_frame (Frame.clear (m_frame w)) w).

(** ** The mutation pass of a project frame (lines 342-353) *)

(** The body of the inner loop: the dataset takes the field its index names
    when the index is between 1 and the number of fields. *)
Definition replace_dataset (fields : QStringList) (dataset : Dataset.t) : Dataset.t :=
  let index := Dataset.index dataset in
  if (index <=? Z.of_nat (length fields)) && (index >? 0) then
    match fields !! Z.to_nat (index - 1) with
    | Some field => Dataset.set_value field dataset
    | None => dataset
    end
  else dataset.

(** [for (int d = 0; d < group.datasetCount(); ++d)] on [group.m_datasets[d]] *)
Definition replace_group (fields : QStringList) (group : Group.t) : Group.t :=
  let datasets := Group.m_datasets group in
  Group.set_datasets
    (for_each_index (length datasets) 0
       (λ d, modify_at d (replace_dataset fields)) datasets)
    group.

(** [for (int g = 0; g < m_frame.groupCount(); ++g)] on [m_frame.m_groups[g]] *)
Definition replace_data (fields : QStringList) (frame : Frame.t) : Frame.t :=
  let groups := Frame.m_groups frame in
  Frame.set_groups
    (for_each_index (length groups) 0
       (λ g, modify_at g (replace_group fields)) groups)
    frame.

(** ** The frame of a quick plot (lines 362-420) *)

Section QuickPlotFrame.
(** [QString::fromUtf8], which FrameBuilder.cpp only applies and never
    looks into. *)
Variable QString_fromUtf8 : QByteArray → QString.

(** lines 366-379: one dataset per field, numbered from 1.  [channel] is an
    [int] that counts the fields of one frame; it stays far below 2^31. *)
Definition quickplot_dataset (channel : Z) (field : QByteArray) : Dataset.t :=
  let dataset := Dataset.new in
  let dataset := Dataset.set_groupId 0 dataset in
  let dataset := Dataset.set_index channel dataset in
  let dataset := Dataset.set_title (tr "Channel " ++ number channel) dataset in
  let dataset := Dataset.set_value (QString_fromUtf8 field) dataset in
  let dataset := Dataset.set_graph false dataset in
  dataset.

Definition quickplot_datasets (fields : list QByteArray) : list Dataset.t :=
  snd (fold_left
         (λ '(channel, datasets) field,
            (channel + 1, (datasets ++ [quickplot_dataset channel field])%list))
         fields (1, [])).

(** lines 381-420 *)
Definition quickplot_frame (data : QByteArray) : Frame.t :=
  let fields := split comma data in
  let datasets := quickplot_datasets fields in
  let frame := Frame.new in
  let frame := Frame.set_title (tr "Quick Plot") frame in
  (* the data grid *)
  let datagrid := Group.new 0 in
  let datagrid := Group.set_datasets datasets datagrid in
  let datagrid := Group.set_title (tr "Quick Plot Data") datagrid in
  let datagrid := Group.set_widget "datagrid" datagrid in
  let frame := Frame.set_groups (Frame.m_groups frame ++ [datagrid])%list frame in
  (* the multiplot, when there are several datasets *)
  let frame :=
    if (Z.of_nat (length datasets) >? 1) then
      let multiplot := Group.new 1 in
      let multiplot := Group.set_datasets datasets multiplot in
      let multiplot := Group.set_title (tr "Multiple Plots") multiplot in
      let multiplot := Group.set_widget "multiplot" multiplot in
      let multiplot :=
        Group.set_datasets
          (for_each_index (length (Group.m_datasets multiplot)) 0
             (λ i, modify_at i (Dataset.set_groupId 1))
             (Group.m_datasets multiplot))
          multiplot in
      Frame.set_groups (Frame.m_groups frame ++ [multiplot])%list frame
    else frame in
  (* the container of the plots *)
  let plots := Group.new 2 in
  let plots := Group.set_datasets datasets plots in
  let plots := Group.set_widget "" plots in
  let plots := Group.set_title (tr "Individual Plots") plots in
  let plots :=
    Group.set_datasets
      (for_each_index (length (Group.m_datasets plots)) 0
         (λ i ds,
            let ds := modify_at i (Dataset.set_groupId 2) ds in
            let ds := modify_at i (Dataset.set_graph true) ds in
            modify_at i (Dataset.set_displayInOverview (length ds =? 1)%nat) ds)
         (Group.m_datasets plots))
      plots in
  Frame.set_groups (Frame.m_groups frame ++ [plots])%list frame.
End QuickPlotFrame.

(** ** JSON documents *)

(** What [QJsonDocument::fromJson(data, &error)] gives: a syntax error with
    its text, or a document with its [object()].  The objects themselves are
    Qt's; the builder only passes them on. *)
Inductive QJsonDocument (QJsonObject : Type) :=
  | ParseError (errorString : QString)
  | Document (object : QJsonObject).

Arguments ParseError {QJsonObject} errorString.
Arguments Document {QJsonObject} object.

(** [document.object()]: of a document that is null the empty object. *)
Definition QJsonDocument_object {QJsonObject : Type} (QJsonObject_empty : QJsonObject)
    (document : QJsonDocument QJsonObject) : QJsonObject :=
  match document with
  | ParseError _ => QJsonObject_empty
  | Document object => object
  end.

(** ** The member functions *)

Module FrameBuilder.

(** lines 102-113 *)

Definition frameParser : M (option FrameParser) := gets m_frameParser.
Definition operationMode : M OperationMode := gets m_opMode.

(** lines 225-228 *)
Definition setFrameParser (parser : option FrameParser) : M unit :=
  modify (with_frameParser parser).

(** lines 274-277 *)
Definition setJsonPathSetting (path : QString) : M unit :=
  settings_setValue "json_map_location" (QvString path).

Section Members.
(** Qt's JSON documents and the reader of a frame are used by
    FrameBuilder.cpp and defined elsewhere ([QJsonDocument], [QJsonObject],
    [JSON::Frame::read], [JSON::Frame::isValid], [QByteArray::toHex],
    [QByteArray::toBase64], [QString::fromUtf8]). *)
Variable QJsonObject : Type.

(** The object of a document that is null or not an object. *)
Variable QJsonObject_empty : QJsonObject.

(** [QJsonDocument::fromJson(data, &error)] *)
Variable QJsonDocument_fromJson : QByteArray → QJsonDocument QJsonObject.

(** [m_frame.read(object)] changes the frame and tells whether it could be
    read; [m_frame.isValid()]. *)
Variable Frame_read : QJsonObject → Frame.t → bool * Frame.t.
Variable Frame_isValid : Frame.t → bool.

Variable QString_fromUtf8 : QByteArray → QString.
Variable QByteArray_toHex : QByteArray → QByteArray.
Variable QByteArray_toBase64 : QByteArray → QByteArray.

Definition frame_read (object : QJsonObject) : M bool := λ w,
  let (ok, frame) := Frame_read object (m_frame w) in (ok, with_frame frame w).

(** lines 142-219 *)
Definition loadJsonMap (path : QString) : M unit :=
  (* Validate path *)
  if QString_isEmpty path then skip else
  (* Close previous file (if open) *)
  wasOpen ← jsonMap_isOpen;
  (if wasOpen : bool
   then frame_clear;; jsonMap_close;; emit_jsonFileMapChanged
   else skip);;
  (* Try to open the file (read only mode) *)
  jsonMap_setFileName path;;
  opened ← jsonMap_open;
  (if opened : bool then
     (* Read data & validate JSON from file *)
     data ← jsonMap_readAll;
     match QJsonDocument_fromJson data with
     | ParseError errorString =>
         frame_clear;;
         jsonMap_close;;
         setJsonPathSetting "";;
         showMessageBox (tr "JSON parse error") errorString
     | Document object =>
         (* Save settings *)
         setJsonPathSetting path;;
         (* Load frame from data *)
         frame_clear;;
         ok ← frame_read object;
         valid ← gets (λ w, Frame_isValid (m_frame w));
         (* Update I/O manager settings *)
         if ok && valid then
           mode ← operationMode;
           if decide (mode = ProjectFile) then
             frame ← gets m_frame;
             io_setFinishSequence (Frame.frameEnd frame);;
             io_setStartSequence (Frame.frameStart frame)
           else skip
         (* Invalid frame data *)
         else
           frame_clear;;
           jsonMap_close;;
           setJsonPathSetting "";;
           showMessageBox (tr "Invalid JSON project format") ""
     end
   (* Open error *)
   else
     setJsonPathSetting "";;
     showMessageBox (tr "Cannot read JSON file")
                    (tr "Please check file permissions & location");;
     jsonMap_close);;
  (* Update UI *)
  emit_jsonFileMapChanged.

(** lines 243-269 *)
Definition setOperationMode (mode : OperationMode) : M unit :=
  modify (with_opMode mode);;
  match mode with
  | DeviceSendsJSON =>
      io_setStartSequence "";;
      io_setFinishSequence ""
  | ProjectFile =>
      frame ← gets m_frame;
      io_setFinishSequence (Frame.frameEnd frame);;
      io_setStartSequence (Frame.frameStart frame)
  | QuickPlot =>
      io_setStartSequence "";;
      io_setFinishSequence ""
  | InvalidMode _ =>
      qWarning "Invalid operation mode selected" mode
  end;;
  settings_setValue "operation_mode" (QvMode mode);;
  emit_operationModeChanged.

(** lines 316-335: the text of a live frame and the fields the registered
    parser finds in it *)
Definition parsed_fields (parser : FrameParser) (method : DecoderMethod)
    (data : QByteArray) : QStringList :=
  let frameData :=
    match method with
    | PlainText => QString_fromUtf8 data
    | Hexadecimal => QString_fromUtf8 (QByteArray_toHex data)
    | Base64 => QString_fromUtf8 (QByteArray_toBase64 data)
    | InvalidDecoder _ => QString_fromUtf8 data
    end in
  parser frameData.

(** line 340: the fields of a frame played from a CSV file *)
Definition csv_fields (data : QByteArray) : QStringList :=
  split comma (QString_fromUtf8 (simplified data)).

(** lines 310-340: the fields [readData] works with in project mode *)
Definition project_fields (parser : FrameParser) (csvPlaying : bool)
    (method : DecoderMethod) (data : QByteArray) : QStringList :=
  if negb csvPlaying then parsed_fields parser method data else csv_fields data.

(** lines 292-424 *)
Definition readData (data : QByteArray) : M unit :=
  (* Data empty, abort *)
  if QByteArray_isEmpty data then skip else
  mode ← operationMode;
  parser ← frameParser;
  (* Serial device sends JSON (auto mode) *)
  if decide (mode = DeviceSendsJSON) then
    let jsonData := QJsonDocument_object QJsonObject_empty (QJsonDocument_fromJson data) in
    ok ← frame_read jsonData;
    if ok : bool then frame ← gets m_frame; emit_frameChanged frame else skip
  else
    match (if decide (mode = ProjectFile) then parser else None) with
    (* Data is separated and parsed by Serial Studio project *)
    | Some parser =>
        (* Obtain state of the app *)
        csvPlaying ← gets csvPlayer_isOpen;
        fields ←
          (if negb csvPlaying then
             method ← gets projectModel_decoderMethod;
             mret (parsed_fields parser method data)
           else mret (csv_fields data));
        (* Replace data in frame *)
        modify (λ w, with_frame (replace_data fields (m_frame w)) w);;
        (* Update user interface *)
        frame ← gets m_frame;
        emit_frameChanged frame
    | None =>
        (* Data is separated by comma separated values *)
        if decide (mode = QuickPlot) then
          emit_frameChanged (quickplot_frame QString_fromUtf8 data)
        else skip
    end.
End Members.

Arguments frame_read {QJsonObject} Frame_read object.
Arguments loadJsonMap {QJsonObject} QJsonDocument_fromJson Frame_read Frame_isValid path.
Arguments readData {QJsonObject} QJsonObject_empty QJsonDocument_fromJson Frame_read
  QString_fromUtf8 QByteArray_toHex QByteArray_toBase64 data.

(** *** The project file, the dialog, the frames of the device, the constructor *)

Section ProjectFileInfo.
(** [QFileInfo(name).filePath()] and [QFileInfo(name).fileName()] are Qt's. *)
Variable QFileInfo_filePath : QString → QString.
Variable QFileInfo_fileName : QString → QString.

(** lines 74-83 *)
Definition jsonMapFilepath : M QString :=
  open ← jsonMap_isOpen;
  if open : bool then
    name ← gets (λ w, fileName (m_jsonMap w));
    mret (QFileInfo_filePath name)
  else mret "".

(** lines 88-97 *)
Definition jsonMapFilename : M QString :=
  open ← jsonMap_isOpen;
  if open : bool then
    name ← gets (λ w, fileName (m_jsonMap w));
    mret (QFileInfo_fileName name)
  else mret "".
End ProjectFileInfo.

Section Startup.
Variable QJsonObject : Type.
Variable QJsonObject_empty : QJsonObject.
Variable QJsonDocument_fromJson : QByteArray → QJsonDocument QJsonObject.
Variable Frame_read : QJsonObject → Frame.t → bool * Frame.t.
Variable Frame_isValid : Frame.t → bool.
Variable QString_fromUtf8 : QByteArray → QString.
Variable QByteArray_toHex : QByteArray → QByteArray.
Variable QByteArray_toBase64 : QByteArray → QByteArray.

(** lines 118-127: [file] is what [QFileDialog::getOpenFileName] returns,
    the empty text when the dialog is cancelled. *)
Definition loadJsonMap_fromDialog (file : QString) : M unit :=
  if negb (QString_isEmpty file)
  then loadJsonMap QJsonDocument_fromJson Frame_read Frame_isValid file
  else skip.

(** lines 133-137: [IO::Manager::frameReceived] is connected to [readData]
    with a queued connection, so the frames the manager announces are read
    one after the other, in the order of the announcements. *)
Fixpoint frameReceived (frames : list QByteArray) : M unit :=
  match frames with
  | [] => skip
  | data :: rest =>
      readData QJsonObject_empty QJsonDocument_fromJson Frame_read
        QString_fromUtf8 QByteArray_toHex QByteArray_toBase64 data;;
      frameReceived rest
  end.

(** The integer of a mode, [static_cast<SerialStudio::OperationMode>] and
    [QString::toInt]: the numbers of the enumerators are in SerialStudio.h. *)
Variable OperationMode_toInt : OperationMode → Z.
Variable OperationMode_cast : Z → OperationMode.
Variable QString_toInt : QString → Z.

(** [m_settings.value(key, defaultValue)], [QVariant::toString] and
    [QVariant::toInt] *)
Definition settings_value (key : string) (defaultValue : QVariant) : M QVariant :=
  gets (λ w, default defaultValue (m_settings w !! key)).

Definition QVariant_toString (value : QVariant) : QString :=
  match value with
  | QvString s => s
  | QvMode mode => number (OperationMode_toInt mode)
  end.

Definition QVariant_toInt (value : QVariant) : Z :=
  match value with
  | QvString s => QString_toInt s
  | QvMode mode => OperationMode_toInt mode
  end.

(** lines 39-60, without the connection to the licensing module.  The world
    before gives the stored settings and the other singletons; the members
    start as the initialisers and the default constructors leave them. *)
Definition constructor : M unit :=
  modify (with_opMode ProjectFile);;
  modify (with_frameParser None);;
  modify (with_frame Frame.new);;
  modify (with_jsonMap (mkQFile "" false));;
  (* Read JSON map location *)
  location ← settings_value "json_map_location" (QvString "");
  let path := QVariant_toString location in
  (if negb (QString_isEmpty path)
   then loadJsonMap QJsonDocument_fromJson Frame_read Frame_isValid path
   else skip);;
  (* Obtain operation mode from settings *)
  stored ← settings_value "operation_mode" (QvMode QuickPlot);
  let m := QVariant_toInt stored in
  setOperationMode (OperationMode_cast m).
End Startup.

Arguments loadJsonMap_fromDialog {QJsonObject} QJsonDocument_fromJson Frame_read
  Frame_isValid file.
Arguments frameReceived {QJsonObject} QJsonObject_empty QJsonDocument_fromJson Frame_read
  QString_fromUtf8 QByteArray_toHex QByteArray_toBase64 frames.
Arguments constructor {QJsonObject} QJsonDocument_fromJson Frame_read Frame_isValid
  OperationMode_toInt OperationMode_cast QString_toInt.

End FrameBuilder.

(** ** A concrete reader, to run the builder on concrete frames *)

Module Sample.
(** A JSON object is kept as the title and the groups its root declares. *)
Record object := mkObject {
  title : QString;
  groups : list Group.t
}.

Definition empty_object : object := mkObject "" [].

(** A project of one group: the temperature is the second field of a
    frame, the humidity the fifth. *)
Definition frame : Frame.t :=
  Frame.mk "Weather"
    [Group.mk 0 "Air" "datagrid"
       [Dataset.mk 0 2 "Temperature" "21" "" false false;
        Dataset.mk 0 5 "Humidity" "40" "" true false]]
    "/*" "*/".

Definition text : QByteArray := "{weather}".

(** One document is known to the reader, [{}] is the empty object and any
    other text is a syntax error. *)
Definition fromJson (data : QByteArray) : QJsonDocument object :=
  if String.eqb data text then Document (mkObject "Weather" (Frame.m_groups frame))
  else if String.eqb data "{}" then Document empty_object
  else ParseError "illegal value".

(** Modelled from the spec: [JSON::Frame::read] and [JSON::Frame::isValid]
    are defined in Frame.cpp.  A root is read as a frame when it declares a
    title and a list of groups that is not empty; a frame that could not be
    read is left empty. *)
Definition read (o : object) (f : Frame.t) : bool * Frame.t :=
  if negb (QString_isEmpty (title o)) && negb (forallb (λ _, false) (groups o))
  then (true, Frame.mk (title o) (groups o) "/*" "*/")
  else (false, Frame.new).

Definition isValid (f : Frame.t) : bool :=
  negb (QString_isEmpty (Frame.m_title f)) && negb (forallb (λ _, false) (Frame.m_groups f)).

(** A parser that takes the fields between semicolons. *)
Definition parser : FrameParser := split ";"%char.

(** The builder before anything was loaded or received: no project file,
    an empty frame, no file that can be opened. *)
Definition start (mode : OperationMode) (parser : option FrameParser) : World :=
  mkWorld mode parser Frame.new (mkQFile "" false) ∅ "" "" false PlainText
    (λ _, None) [].

(** The builder with the project loaded from [weather.json], receiving live
    frames or frames played from a CSV file. *)
Definition project (csvPlaying : bool) : World :=
  mkWorld ProjectFile (Some parser) frame (mkQFile "weather.json" true)
    {["json_map_location" := QvString "weather.json"]} "/*" "*/" csvPlaying PlainText
    (λ _, None) [].

Definition readData := FrameBuilder.readData empty_object fromJson read id id id.
Definition loadJsonMap := FrameBuilder.loadJsonMap fromJson read isValid.

(** The numbers of the modes, for the constructor: the enumerators in the
    order project file, JSON from the device, quick plot. *)
Definition toInt (mode : OperationMode) : Z :=
  match mode with
  | ProjectFile => 0
  | DeviceSendsJSON => 1
  | QuickPlot => 2
  | InvalidMode raw => raw
  end.

Definition cast (m : Z) : OperationMode :=
  match m with
  | 0 => ProjectFile
  | 1 => DeviceSendsJSON
  | 2 => QuickPlot
  | _ => InvalidMode m
  end.

Definition constructor := FrameBuilder.constructor fromJson read isValid toInt cast (λ _, 0).
Definition frameReceived := FrameBuilder.frameReceived empty_object fromJson read id id id.

(** A disk that holds the project as [weather.json] and a file of another
    kind as [notes.txt]. *)
Definition disk (name : QString) : option QByteArray :=
  if String.eqb name "weather.json" then Some text
  else if String.eqb name "notes.txt" then Some "remember the umbrella"
  else if String.eqb name "empty.json" then Some "{}"
  else None.

(** A builder that was started in [mode] and has loaded nothing yet, and a
    builder that holds the project of [weather.json], both with the disk. *)
Definition started (mode : OperationMode) : World :=
  mkWorld mode None Frame.new (mkQFile "" false) ∅ "" "" false PlainText disk [].

Definition holding (mode : OperationMode) : World :=
  mkWorld mode (Some parser) frame (mkQFile "weather.json" true)
    {["json_map_location" := QvString "weather.json"]} "/*" "*/" false PlainText disk [].

(** The world a constructor finds: the stored settings and the disk. *)
Definition before (settings : gmap string QVariant) : World :=
  mkWorld (InvalidMode (-1)) None Frame.new (mkQFile "" false) settings "" "" false
    PlainText disk [].
End Sample.

(** ** Vocabulary of the properties *)

(** The world after the builder stored [frame] in [m_frame] and emitted
    [frameChanged(m_frame)]. *)
Definition published (frame : Frame.t) (w : World) : World :=
  with_trace (trace w ++ [Emit_frameChanged frame])%list (with_frame frame w).

(** The index of a dataset names one of [count] fields. *)
Definition names_field (index : Z) (count : nat) : Prop :=
  1 ≤ index ≤ Z.of_nat count.

(** Two datasets, groups or frames that differ at most in the values of
    their datasets: as many groups and datasets, in the same order, with the
    same identifiers, indices, titles, widgets and flags. *)
Definition same_dataset_but_value (a b : Dataset.t) : Prop :=
  Dataset.m_groupId a = Dataset.m_groupId b
  ∧ Dataset.m_index a = Dataset.m_index b
  ∧ Dataset.m_title a = Dataset.m_title b
  ∧ Dataset.m_widget a = Dataset.m_widget b
  ∧ Dataset.m_graph a = Dataset.m_graph b
  ∧ Dataset.m_displayInOverview a = Dataset.m_displayInOverview b.

Definition same_group_but_values (a b : Group.t) : Prop :=
  Group.m_groupId a = Group.m_groupId b
  ∧ Group.m_title a = Group.m_title b
  ∧ Group.m_widget a = Group.m_widget b
  ∧ Forall2 same_dataset_but_value (Group.m_datasets a) (Group.m_datasets b).

Definition same_frame_but_values (a b : Frame.t) : Prop :=
  Frame.m_title a = Frame.m_title b
  ∧ Frame.m_frameStart a = Frame.m_frameStart b
  ∧ Frame.m_frameEnd a = Frame.m_frameEnd b
  ∧ Forall2 same_group_but_values (Frame.m_groups a) (Frame.m_groups b).

(** The datasets the description of a quick plot asks for: one per field,
    numbered from 1 and titled after its number, in the group [groupId]. *)
Definition channels (QString_fromUtf8 : QByteArray → QString) (groupId : Z)
    (graph overview : bool) (fields : list QByteArray) : list Dataset.t :=
  imap (λ i field,
          let position := Z.of_nat (S i) in
          Dataset.mk groupId position ("Channel " ++ number position)
            (QString_fromUtf8 field) "" graph overview)
       fields.

(** The pieces of a text put together again with [sep] between them, and
    the number of times [sep] occurs in a text. *)
Fixpoint join (sep : ascii) (pieces : list string) : string :=
  match pieces with
  | [] => EmptyString
  | [piece] => piece
  | piece :: rest => (piece ++ String sep (join sep rest))%string
  end.

Fixpoint occurrences (sep : ascii) (s : string) : nat :=
  match s with
  | EmptyString => O
  | String c rest => if Ascii.eqb c sep then S (occurrences sep rest) else occurrences sep rest
  end.

(** A text of spacing characters only. *)
Fixpoint all_spacing (s : string) : bool :=
  match s with
  | EmptyString => true
  | String c rest => isspace c && all_spacing rest
  end.

(** A world without its trace, to compare what two runs leave behind. *)
Definition state (w : World) : World := with_trace [] w.

(** The effects of a kind among the observed ones. *)
Definition is_messageBox (e : Effect) : bool :=
  match e with ShowMessageBox _ _ => true | _ => false end.

(** How the load of a project file ends, read off the disk: the file cannot
    be opened, it is no JSON document, the document is no valid frame, or it
    is the frame that is loaded.  The frame reader starts from the cleared
    frame. *)
Inductive LoadOutcome :=
  | OpenError
  | SyntaxError (errorString : QString)
  | InvalidFrame
  | Loaded (frame : Frame.t).

Definition load_outcome {QJsonObject : Type}
    (QJsonDocument_fromJson : QByteArray → QJsonDocument QJsonObject)
    (Frame_read : QJsonObject → Frame.t → bool * Frame.t)
    (Frame_isValid : Frame.t → bool)
    (w : World) (path : QString) : LoadOutcome :=
  match files w path with
  | None => OpenError
  | Some data =>
      match QJsonDocument_fromJson data with
      | ParseError errorString => SyntaxError errorString
      | Document object =>
          let (ok, frame) := Frame_read object Frame.new in
          if ok && Frame_isValid frame then Loaded frame else InvalidFrame
      end
  end.

(** * Properties *)

(** ** Loops over an array *)

Lemma modify_at_middle {A} (f : A → A) (pre : list A) (x : A) (post : list A) :
  modify_at (length pre) f (pre ++ x :: post)%list = (pre ++ f x :: post)%list.
Proof.
  unfold modify_at.
  rewrite list_lookup_middle by reflexivity.
  rewrite insert_app_r_alt by lia.
  rewrite Nat.sub_diag. reflexivity.
Qed.

Lemma modify_at_length {A} (i : nat) (f : A → A) (xs : list A) :
  length (modify_at i f xs) = length xs.
Proof.
  unfold modify_at. destruct (xs !! i); [apply length_insert | reflexivity].
Qed.

(** A loop whose body rewrites the element at the current position leaves
    the array with every element rewritten once, in place. *)
Lemma for_each_index_from {A} (f : A → A) (body : nat → list A → list A)
    (post pre : list A) :
  (∀ i ys, length ys = length (pre ++ post)%list → body i ys = modify_at i f ys) →
  for_each_index (length post) (length pre) body (pre ++ post)%list
  = (pre ++ (f <$> post))%list.
Proof.
  revert pre. induction post as [|x post IH]; intros pre Hbody; [reflexivity|].
  cbn [length for_each_index].
  replace (length pre <? length (pre ++ x :: post)%list)%nat with true
    by (symmetry; apply Nat.ltb_lt; rewrite length_app; cbn; lia).
  rewrite Hbody by reflexivity.
  rewrite modify_at_middle.
  specialize (IH (pre ++ [f x])%list).
  replace (length (pre ++ [f x])%list) with (S (length pre)) in IH
    by (rewrite length_app; cbn; lia).
  rewrite <- !app_assoc in IH. cbn [app] in IH.
  rewrite IH; [reflexivity|].
  intros i ys Hlen. apply Hbody. rewrite Hlen, !length_app. cbn. lia.
Qed.

Lemma for_each_index_fmap {A} (f : A → A) (body : nat → list A → list A) (xs : list A) :
  (∀ i ys, length ys = length xs → body i ys = modify_at i f ys) →
  for_each_index (length xs) 0 body xs = f <$> xs.
Proof. intros Hbody. exact (for_each_index_from f body xs [] Hbody). Qed.

(** As many rounds as the array has elements are enough: with more rounds
    the loop leaves at the same point, its guard. *)
Lemma for_each_index_runs {A} (body : nat → list A → list A) (more rounds from : nat)
    (xs : list A) :
  (∀ i ys, length (body i ys) = length ys) →
  (length xs ≤ from + rounds)%nat →
  for_each_index (rounds + more) from body xs = for_each_index rounds from body xs.
Proof.
  intros Hbody. revert from xs.
  induction rounds as [|rounds IH]; intros from xs Hlen; cbn [Nat.add for_each_index].
  - destruct more as [|more]; [reflexivity|]. cbn [for_each_index].
    replace (from <? length xs)%nat with false; [reflexivity|].
    symmetry. apply Nat.ltb_ge. lia.
  - destruct (from <? length xs)%nat; [|reflexivity].
    apply IH. rewrite Hbody. lia.
Qed.

(** ** The mutation pass *)

Lemma replace_group_fmap (fields : QStringList) (group : Group.t) :
  replace_group fields group
  = Group.set_datasets (replace_dataset fields <$> Group.m_datasets group) group.
Proof.
  unfold replace_group. cbn zeta.
  rewrite (for_each_index_fmap (replace_dataset fields)); reflexivity.
Qed.

Lemma replace_data_fmap (fields : QStringList) (frame : Frame.t) :
  replace_data fields frame
  = Frame.set_groups (replace_group fields <$> Frame.m_groups frame) frame.
Proof.
  unfold replace_data. cbn zeta.
  rewrite (for_each_index_fmap (replace_group fields)); reflexivity.
Qed.

Lemma replace_dataset_in_range (fields : QStringList) (dataset : Dataset.t) :
  1 ≤ Dataset.index dataset ≤ Z.of_nat (length fields) →
  ∃ field, fields !! Z.to_nat (Dataset.index dataset - 1) = Some field
           ∧ replace_dataset fields dataset = Dataset.set_value field dataset.
Proof.
  intros [Hlo Hhi]. unfold replace_dataset. cbn zeta.
  destruct (lookup_lt_is_Some_2 fields (Z.to_nat (Dataset.index dataset - 1)))
    as [field Hfield]; [lia|].
  exists field. split; [exact Hfield|].
  unfold QStringList, QString in *. rewrite Hfield.
  replace (Dataset.index dataset <=? Z.of_nat (length fields)) with true
    by (symmetry; apply Z.leb_le; lia).
  replace (Dataset.index dataset >? 0) with true
    by (symmetry; apply Z.gtb_lt; lia).
  reflexivity.
Qed.

Lemma replace_dataset_out_of_range (fields : QStringList) (dataset : Dataset.t) :
  ¬ (1 ≤ Dataset.index dataset ≤ Z.of_nat (length fields)) →
  replace_dataset fields dataset = dataset.
Proof.
  intros Hout. unfold replace_dataset. cbn zeta.
  destruct (Z.leb_spec (Dataset.index dataset) (Z.of_nat (length fields)));
    [|reflexivity].
  destruct (Z.gtb_spec (Dataset.index dataset) 0); [|reflexivity].
  exfalso. apply Hout. lia.
Qed.

(** Whatever the index, only the value of a dataset can change. *)
Lemma replace_dataset_set_value (fields : QStringList) (dataset : Dataset.t) :
  ∃ value, replace_dataset fields dataset = Dataset.set_value value dataset.
Proof.
  unfold replace_dataset. cbn zeta.
  destruct (_ && _); [destruct (fields !! _) as [field|]|].
  - exists field. reflexivity.
  - exists (Dataset.m_value dataset). destruct dataset; reflexivity.
  - exists (Dataset.m_value dataset). destruct dataset; reflexivity.
Qed.

(** Running the steps of a member function: the steps are unfolded down to
    functions on worlds and applied; maps and traces are left as they are. *)
Ltac run_steps :=
  unfold exec, skip,
    FrameBuilder.setJsonPathSetting, FrameBuilder.setFrameParser,
    FrameBuilder.operationMode, FrameBuilder.frameParser, FrameBuilder.frame_read,
    io_setStartSequence, io_setFinishSequence, settings_setValue,
    showMessageBox, qWarning, emit_jsonFileMapChanged, emit_operationModeChanged,
    emit_frameChanged, frame_clear, jsonMap_isOpen, jsonMap_setFileName,
    jsonMap_open, jsonMap_readAll, jsonMap_close, log, modify, gets,
    mbind, M_bind, mret, M_ret, Frame.clear;
  cbn -[insert lookup app].

(** ** What one call of a member function does *)

Section FrameBuilderProperties.
Context {QJsonObject : Type}.
Context (QJsonObject_empty : QJsonObject).
Context (QJsonDocument_fromJson : QByteArray → QJsonDocument QJsonObject).
Context (Frame_read : QJsonObject → Frame.t → bool * Frame.t).
Context (Frame_isValid : Frame.t → bool).
Context (QString_fromUtf8 : QByteArray → QString).
Context (QByteArray_toHex QByteArray_toBase64 : QByteArray → QByteArray).

Local Abbreviation readData :=
  (FrameBuilder.readData QJsonObject_empty QJsonDocument_fromJson Frame_read
     QString_fromUtf8 QByteArray_toHex QByteArray_toBase64).
Local Abbreviation loadJsonMap :=
  (FrameBuilder.loadJsonMap QJsonDocument_fromJson Frame_read Frame_isValid).
Local Abbreviation project_fields :=
  (FrameBuilder.project_fields QString_fromUtf8 QByteArray_toHex QByteArray_toBase64).

Lemma readData_ProjectFile (w : World) (data : QByteArray) (parser : FrameParser) :
  m_opMode w = ProjectFile →
  m_frameParser w = Some parser →
  QByteArray_isEmpty data = false →
  exec (readData data) w
  = published
      (replace_data
         (project_fields parser (csvPlayer_isOpen w) (projectModel_decoderMethod w) data)
         (m_frame w))
      w.
Proof.
  intros Hmode Hparser Hdata.
  unfold exec, FrameBuilder.readData. rewrite Hdata.
  unfold mbind, M_bind, FrameBuilder.operationMode, FrameBuilder.frameParser, gets.
  rewrite Hmode, Hparser.
  repeat case_decide; try congruence.
  unfold FrameBuilder.project_fields.
  destruct (csvPlayer_isOpen w); reflexivity.
Qed.

(** *** The mutation pass keeps the shape of the frame *)

Lemma Forall2_fmap_self {A} (P : A → A → Prop) (f : A → A) (xs : list A) :
  (∀ x, P x (f x)) → Forall2 P xs (f <$> xs).
Proof. intros HP. induction xs as [|x xs IH]; cbn; constructor; auto. Qed.

Lemma replace_dataset_same (fields : QStringList) (dataset : Dataset.t) :
  same_dataset_but_value dataset (replace_dataset fields dataset).
Proof.
  destruct (replace_dataset_set_value fields dataset) as [value ->].
  repeat split.
Qed.

Lemma replace_group_same (fields : QStringList) (group : Group.t) :
  same_group_but_values group (replace_group fields group).
Proof.
  rewrite replace_group_fmap. repeat split. cbn.
  apply Forall2_fmap_self, replace_dataset_same.
Qed.

Lemma replace_data_same (fields : QStringList) (frame : Frame.t) :
  same_frame_but_values frame (replace_data fields frame).
Proof.
  rewrite replace_data_fmap. repeat split. cbn.
  apply Forall2_fmap_self, replace_group_same.
Qed.

(** C8: in project mode the pass over the frame adds, removes and reorders
    nothing: the frame after a message has the groups and the datasets of the
    frame before it, at the same places, and every dataset keeps its group
    identifier, index, title, widget and flags; only values can differ. *)
Theorem readData_ProjectFile_keeps_shape
    (w : World) (data : QByteArray) (parser : FrameParser) :
  m_opMode w = ProjectFile →
  m_frameParser w = Some parser →
  QByteArray_isEmpty data = false →
  same_frame_but_values (m_frame w) (m_frame (exec (readData data) w))
  ∧ ∀ fields frame, same_frame_but_values frame (replace_data fields frame).
Proof.
  intros Hmode Hparser Hdata. split; [|apply replace_data_same].
  rewrite (readData_ProjectFile w data parser Hmode Hparser Hdata).
  apply replace_data_same.
Qed.

(** *** The values the mutation pass writes *)

Lemma replace_data_lookup (fields : QStringList) (frame : Frame.t) (g d : nat)
    (group : Group.t) (dataset : Dataset.t) :
  Frame.m_groups frame !! g = Some group →
  Group.m_datasets group !! d = Some dataset →
  Frame.m_groups (replace_data fields frame) !! g = Some (replace_group fields group)
  ∧ Group.m_datasets (replace_group fields group) !! d
    = Some (replace_dataset fields dataset).
Proof.
  intros Hgroup Hdataset. split.
  - rewrite replace_data_fmap. cbn.
    rewrite list_lookup_fmap, Hgroup. reflexivity.
  - rewrite replace_group_fmap. cbn.
    rewrite list_lookup_fmap, Hdataset. reflexivity.
Qed.

(** C1: in project mode every dataset of the frame, group after group and
    dataset after dataset, ends with the field its index names when the index
    is between 1 and the number of fields, and with the value it had when the
    index is outside (0 included). *)
Theorem readData_ProjectFile_values
    (w : World) (data : QByteArray) (parser : FrameParser) :
  m_opMode w = ProjectFile →
  m_frameParser w = Some parser →
  QByteArray_isEmpty data = false →
  let fields :=
    project_fields parser (csvPlayer_isOpen w) (projectModel_decoderMethod w) data in
  let w' := exec (readData data) w in
  ∀ (g d : nat) (group : Group.t) (dataset : Dataset.t),
    Frame.m_groups (m_frame w) !! g = Some group →
    Group.m_datasets group !! d = Some dataset →
    ∃ (group' : Group.t) (dataset' : Dataset.t),
      Frame.m_groups (m_frame w') !! g = Some group'
      ∧ Group.m_datasets group' !! d = Some dataset'
      ∧ (names_field (Dataset.index dataset) (length fields) →
         fields !! Z.to_nat (Dataset.index dataset - 1) = Some (Dataset.m_value dataset'))
      ∧ (¬ names_field (Dataset.index dataset) (length fields) →
         Dataset.m_value dataset' = Dataset.m_value dataset).
Proof.
  intros Hmode Hparser Hdata fields w' g d group dataset Hgroup Hdataset.
  subst w'. rewrite (readData_ProjectFile w data parser Hmode Hparser Hdata).
  fold fields. cbn [published m_frame with_trace with_frame].
  destruct (replace_data_lookup fields (m_frame w) g d group dataset Hgroup Hdataset)
    as [Hgroup' Hdataset'].
  exists (replace_group fields group), (replace_dataset fields dataset).
  split; [exact Hgroup'|]. split; [exact Hdataset'|]. split.
  - intros Hin. destruct (replace_dataset_in_range fields dataset Hin) as (field & Hfield & ->).
    exact Hfield.
  - intros Hout. rewrite (replace_dataset_out_of_range fields dataset Hout). reflexivity.
Qed.

(** *** Messages that are dropped *)

(** C10: a frame without bytes is ignored in every mode: the builder, the
    other singletons and the trace are as before, so nothing was emitted. *)
Theorem readData_empty (w : World) :
  exec (readData EmptyString) w = w
  ∧ observed w (exec (readData EmptyString) w) [].
Proof.
  split; [reflexivity|].
  unfold observed. cbn. rewrite app_nil_r. reflexivity.
Qed.

Lemma readData_ProjectFile_no_parser (w : World) (data : QByteArray) :
  m_opMode w = ProjectFile →
  m_frameParser w = None →
  exec (readData data) w = w.
Proof.
  intros Hmode Hparser.
  unfold exec, FrameBuilder.readData.
  destruct (QByteArray_isEmpty data); [reflexivity|].
  unfold mbind, M_bind, FrameBuilder.operationMode, FrameBuilder.frameParser, gets.
  rewrite Hmode, Hparser.
  repeat case_decide; try congruence; reflexivity.
Qed.

Lemma replace_data_no_groups (fields : QStringList) (frame : Frame.t) :
  Frame.m_groups frame = [] → replace_data fields frame = frame.
Proof.
  intros Hgroups. rewrite replace_data_fmap, Hgroups.
  destruct frame; cbn in *. subst. reflexivity.
Qed.

(** C4, as the code has it: in project mode a message is dropped when no
    parser is registered (nothing is emitted, no message box is shown and the
    world is as before).  With a parser and a frame without groups, which is
    what the builder holds when no project file is loaded, a message with
    bytes is not dropped: the held frame is emitted as it is, and that signal
    is all that is observed. *)
Theorem readData_ProjectFile_without_project (w : World) (data : QByteArray) :
  m_opMode w = ProjectFile →
  (m_frameParser w = None → exec (readData data) w = w)
  ∧ (∀ parser,
       m_frameParser w = Some parser →
       QByteArray_isEmpty data = false →
       Frame.m_groups (m_frame w) = [] →
       exec (readData data) w = with_trace (trace w ++ [Emit_frameChanged (m_frame w)])%list w).
Proof.
  intros Hmode. split.
  - apply readData_ProjectFile_no_parser, Hmode.
  - intros parser Hparser Hdata Hgroups.
    rewrite (readData_ProjectFile w data parser Hmode Hparser Hdata).
    rewrite replace_data_no_groups by exact Hgroups.
    unfold published. destruct w; reflexivity.
Qed.

(** *** Frames sent as JSON *)

Lemma DeviceSendsJSON_step (w : World) (data : QByteArray) :
  m_opMode w = DeviceSendsJSON →
  QByteArray_isEmpty data = false →
  exec (readData data) w
  = let (ok, frame) :=
      Frame_read (QJsonDocument_object QJsonObject_empty (QJsonDocument_fromJson data))
        (m_frame w) in
    if ok then published frame w else with_frame frame w.
Proof.
  intros Hmode Hdata.
  unfold exec, FrameBuilder.readData. rewrite Hdata.
  unfold mbind, M_bind, FrameBuilder.operationMode, FrameBuilder.frameParser, gets.
  rewrite Hmode. repeat case_decide; try congruence.
  unfold FrameBuilder.frame_read.
  destruct (Frame_read _ _) as [[|] frame]; reflexivity.
Qed.

(** C3: in the mode where the device sends JSON, and with a frame reader
    that refuses the empty object, nothing is emitted for bytes that are not a
    JSON document and nothing for a document the frame reader refuses; for a
    document the reader accepts, the frame read from it becomes the frame of
    the builder and is emitted, once. *)
Theorem readData_DeviceSendsJSON (w : World) (data : QByteArray) :
  (∀ frame, (Frame_read QJsonObject_empty frame).1 = false) →
  m_opMode w = DeviceSendsJSON →
  let document := QJsonDocument_fromJson data in
  let object := QJsonDocument_object QJsonObject_empty document in
  let w' := exec (readData data) w in
  ((∃ errorString, document = ParseError errorString) → observed w w' [])
  ∧ ((Frame_read object (m_frame w)).1 = false → observed w w' [])
  ∧ (∀ frame,
       QByteArray_isEmpty data = false →
       Frame_read object (m_frame w) = (true, frame) →
       w' = published frame w ∧ observed w w' [Emit_frameChanged frame]).
Proof.
  intros Hrefuses Hmode document object w'.
  assert (Hfail : (Frame_read object (m_frame w)).1 = false → observed w w' []).
  { intros Hread. subst w'. unfold observed. rewrite app_nil_r.
    destruct (QByteArray_isEmpty data) eqn:Hdata.
    - unfold exec, FrameBuilder.readData. rewrite Hdata. reflexivity.
    - rewrite (DeviceSendsJSON_step w data Hmode Hdata).
      fold document. fold object.
      destruct (Frame_read object (m_frame w)) as [ok frame].
      cbn in Hread. subst ok. reflexivity. }
  split; [|split].
  - intros [errorString Herror]. apply Hfail.
    subst object. rewrite Herror. apply Hrefuses.
  - exact Hfail.
  - intros frame Hdata Hread. subst w'.
    rewrite (DeviceSendsJSON_step w data Hmode Hdata).
    fold document. fold object. rewrite Hread.
    split; reflexivity.
Qed.

(** *** Frames played from a CSV file *)

(** C9, as the code has it: in project mode, while the CSV player is open,
    the fields are the pieces between the commas of the text of the
    simplified bytes (spacing removed at both ends, every inner run of
    spacing turned into one space); neither the decoder method nor the
    registered parser has a part in them.  The frame is updated with these
    fields and emitted. *)
Theorem readData_ProjectFile_playback
    (w : World) (data : QByteArray) (parser : FrameParser) :
  m_opMode w = ProjectFile →
  m_frameParser w = Some parser →
  csvPlayer_isOpen w = true →
  QByteArray_isEmpty data = false →
  let fields := split comma (QString_fromUtf8 (simplified data)) in
  (∀ method, project_fields parser true method data = fields)
  ∧ exec (readData data) w = published (replace_data fields (m_frame w)) w.
Proof.
  intros Hmode Hparser Hplaying Hdata fields. split; [reflexivity|].
  rewrite (readData_ProjectFile w data parser Hmode Hparser Hdata), Hplaying.
  reflexivity.
Qed.

(** *** Changing the operation mode *)

(** C7: for every mode the builder takes the mode, then sets the sequences of
    the I/O manager (to the end and the start sequence of the held frame for
    the project mode, to empty texts for the two other modes; a value that is
    no mode only gives a warning and leaves them), then stores the mode under
    [operation_mode] and at last emits [operationModeChanged]. *)
Theorem setOperationMode_effects (mode : OperationMode) (w : World) :
  let w' := exec (FrameBuilder.setOperationMode mode) w in
  let stored := Settings_setValue "operation_mode" (QvMode mode) in
  m_opMode w' = mode
  ∧ m_settings w' !! "operation_mode" = Some (QvMode mode)
  ∧ m_frame w' = m_frame w
  ∧ match mode with
    | ProjectFile =>
        io_startSequence w' = Frame.frameStart (m_frame w)
        ∧ io_finishSequence w' = Frame.frameEnd (m_frame w)
        ∧ observed w w'
            [IO_setFinishSequence (Frame.frameEnd (m_frame w));
             IO_setStartSequence (Frame.frameStart (m_frame w));
             stored; Emit_operationModeChanged]
    | DeviceSendsJSON | QuickPlot =>
        io_startSequence w' = ""
        ∧ io_finishSequence w' = ""
        ∧ observed w w'
            [IO_setStartSequence ""; IO_setFinishSequence "";
             stored; Emit_operationModeChanged]
    | InvalidMode _ =>
        io_startSequence w' = io_startSequence w
        ∧ io_finishSequence w' = io_finishSequence w
        ∧ observed w w'
            [QWarning "Invalid operation mode selected" mode;
             stored; Emit_operationModeChanged]
    end.
Proof.
  cbn zeta. unfold observed.
  destruct mode; unfold FrameBuilder.setOperationMode; run_steps;
    rewrite lookup_insert_eq, <- ?app_assoc; repeat split.
Qed.

(** *** Quick plots *)

Lemma split_not_nil (sep : ascii) (s : string) : split sep s ≠ [].
Proof.
  destruct s as [|c rest]; cbn; [discriminate|].
  destruct (Ascii.eqb c sep); [discriminate|].
  destruct (split sep rest); discriminate.
Qed.

(** A text that splits into one piece is that piece. *)
Lemma split_single (sep : ascii) (s : string) :
  length (split sep s) = 1%nat → split sep s = [s].
Proof.
  induction s as [|c rest IH]; cbn; [reflexivity|].
  destruct (Ascii.eqb c sep).
  - pose proof (split_not_nil sep rest) as Hnil.
    destruct (split sep rest); [congruence|discriminate].
  - destruct (split sep rest) as [|piece pieces] eqn:Hrest.
    + exfalso. exact (split_not_nil sep rest Hrest).
    + cbn. intros Hlen. destruct pieces; [|discriminate].
      specialize (IH eq_refl). congruence.
Qed.

Lemma modify_at_compose {A} (i : nat) (f g : A → A) (xs : list A) :
  modify_at i f (modify_at i g xs) = modify_at i (f ∘ g) xs.
Proof.
  unfold modify_at. destruct (xs !! i) as [x|] eqn:Hx.
  - rewrite list_lookup_insert_eq by (eapply lookup_lt_Some; exact Hx).
    apply list_insert_insert_eq.
  - rewrite Hx. reflexivity.
Qed.

Lemma quickplot_datasets_from (fields : list QByteArray) (k : nat) (acc : list Dataset.t) :
  snd (fold_left
         (λ '(channel, datasets) field,
            (channel + 1, (datasets ++ [quickplot_dataset QString_fromUtf8 channel field])%list))
         fields (Z.of_nat (S k), acc))
  = (acc ++ imap (λ i field, quickplot_dataset QString_fromUtf8 (Z.of_nat (S (k + i))) field)
             fields)%list.
Proof.
  revert k acc. induction fields as [|field fields IH]; intros k acc.
  - cbn. rewrite app_nil_r. reflexivity.
  - cbn [fold_left]. rewrite imap_cons.
    replace (Z.of_nat (S k) + 1) with (Z.of_nat (S (S k))) by lia.
    rewrite IH, <- app_assoc. cbn [app]. rewrite Nat.add_0_r.
    do 2 f_equal. apply imap_ext. intros i x _. unfold compose.
    replace (S k + i)%nat with (k + S i)%nat by lia. reflexivity.
Qed.

Lemma quickplot_datasets_channels (fields : list QByteArray) :
  quickplot_datasets QString_fromUtf8 fields
  = channels QString_fromUtf8 0 false false fields.
Proof.
  exact (quickplot_datasets_from fields 0 []).
Qed.

(** The groups of a quick plot, for any number of fields. *)
Lemma quickplot_frame_groups (data : QByteArray) :
  let fields := split comma data in
  Frame.m_groups (quickplot_frame QString_fromUtf8 data)
  = (Group.mk 0 "Quick Plot Data" "datagrid" (channels QString_fromUtf8 0 false false fields)
     :: (if (1 <? length fields)%nat
         then [Group.mk 1 "Multiple Plots" "multiplot"
                 (channels QString_fromUtf8 1 false false fields)]
         else [])
     ++ [Group.mk 2 "Individual Plots" ""
           (channels QString_fromUtf8 2 true (length fields =? 1)%nat fields)])%list.
Proof.
  intros fields. unfold quickplot_frame. fold fields.
  rewrite quickplot_datasets_channels.
  set (datasets := channels QString_fromUtf8 0 false false fields).
  assert (Hcount : length datasets = length fields)
    by (unfold datasets, channels; apply length_imap).
  cbn [Group.new Group.set_datasets Group.set_title Group.set_widget
       Group.m_datasets Group.m_groupId Group.m_title Group.m_widget tr].
  rewrite (for_each_index_fmap (Dataset.set_groupId 1)) by reflexivity.
  rewrite (for_each_index_fmap
             (Dataset.set_displayInOverview (length fields =? 1)%nat
              ∘ (Dataset.set_graph true ∘ Dataset.set_groupId 2))).
  2:{ intros i ys Hlen. rewrite !modify_at_length, !modify_at_compose.
      rewrite Hlen, Hcount. reflexivity. }
  rewrite Hcount.
  replace (Z.of_nat (length fields) >? 1) with (1 <? length fields)%nat.
  2:{ destruct (Nat.ltb_spec 1 (length fields)); symmetry;
        [apply Z.gtb_lt | rewrite Z.gtb_ltb; apply Z.ltb_ge]; lia. }
  unfold datasets, channels. rewrite !fmap_imap.
  destruct (1 <? length fields)%nat; reflexivity.
Qed.

Lemma readData_QuickPlot (w : World) (data : QByteArray) :
  m_opMode w = QuickPlot →
  QByteArray_isEmpty data = false →
  exec (readData data) w
  = with_trace (trace w ++ [Emit_frameChanged (quickplot_frame QString_fromUtf8 data)])%list w.
Proof.
  intros Hmode Hdata.
  unfold exec, FrameBuilder.readData. rewrite Hdata.
  unfold mbind, M_bind, FrameBuilder.operationMode, FrameBuilder.frameParser, gets.
  rewrite Hmode. repeat case_decide; try congruence.
  destruct (m_frameParser w); reflexivity.
Qed.

(** C5: a quick plot of bytes that hold one field is emitted as a frame of
    two groups, the data grid (identifier 0) and the container of the plots
    (identifier 2), without a multiplot; each holds the one dataset, and the
    one among the plots is shown in the overview. *)
Theorem readData_QuickPlot_one_field (w : World) (data : QByteArray) :
  m_opMode w = QuickPlot →
  QByteArray_isEmpty data = false →
  length (split comma data) = 1%nat →
  let frame := quickplot_frame QString_fromUtf8 data in
  exec (readData data) w = with_trace (trace w ++ [Emit_frameChanged frame])%list w
  ∧ Frame.m_groups frame
    = [Group.mk 0 "Quick Plot Data" "datagrid"
         [Dataset.mk 0 1 "Channel 1" (QString_fromUtf8 data) "" false false];
       Group.mk 2 "Individual Plots" ""
         [Dataset.mk 2 1 "Channel 1" (QString_fromUtf8 data) "" true true]].
Proof.
  intros Hmode Hdata Hone frame. split; [exact (readData_QuickPlot w data Hmode Hdata)|].
  subst frame. rewrite quickplot_frame_groups.
  rewrite (split_single comma data Hone). reflexivity.
Qed.

(** The decimal text of a position reads back as the position: the digits
    [number] writes are those the decimal reader of the library takes for
    that integer, and the integer is the position. *)
Lemma number_reads_back (position : Z) :
  0 < position →
  NilZero.int_of_string (number position) = Some (Z.to_int position)
  ∧ Z.of_int (Z.to_int position) = position.
Proof.
  intros Hpositive. split; [|apply DecimalZ.of_to].
  destruct position as [|p|p]; try lia.
  unfold number. apply NilZero.isi; cbn; intros Hnil; [|discriminate].
  injection Hnil as Hnil. exact (DecimalPos.Unsigned.to_uint_nonnil p Hnil).
Qed.

(** C6: a quick plot of bytes that hold several fields is emitted as a frame
    of three groups, in this order: the data grid (identifier 0), the
    multiplot (identifier 1) and the container of the plots (identifier 2).
    Each has one dataset per field, in the order of the fields, with the
    position of the field counted from 1 as index and "Channel" and that
    position as title; those of the plots carry the group identifier 2, are
    graphed and are not shown in the overview.  The position in a title is
    written in decimal: its digits read back as the position, so the first
    titles are Channel 1, Channel 2, Channel 3 and the tenth is Channel 10. *)
Theorem readData_QuickPlot_several_fields (w : World) (data : QByteArray) :
  m_opMode w = QuickPlot →
  let fields := split comma data in
  (1 < length fields)%nat →
  let frame := quickplot_frame QString_fromUtf8 data in
  exec (readData data) w = with_trace (trace w ++ [Emit_frameChanged frame])%list w
  ∧ Frame.m_groups frame
    = [Group.mk 0 "Quick Plot Data" "datagrid"
         (channels QString_fromUtf8 0 false false fields);
       Group.mk 1 "Multiple Plots" "multiplot"
         (channels QString_fromUtf8 1 false false fields);
       Group.mk 2 "Individual Plots" ""
         (channels QString_fromUtf8 2 true false fields)]
  ∧ (∀ (groupId : Z) (graph overview : bool) (i : nat) (field : QByteArray),
       fields !! i = Some field →
       channels QString_fromUtf8 groupId graph overview fields !! i
       = Some (Dataset.mk groupId (Z.of_nat i + 1)
                 ("Channel " ++ number (Z.of_nat i + 1))
                 (QString_fromUtf8 field) "" graph overview))
  ∧ (∀ i : nat,
       NilZero.int_of_string (number (Z.of_nat i + 1)) = Some (Z.to_int (Z.of_nat i + 1))
       ∧ Z.of_int (Z.to_int (Z.of_nat i + 1)) = Z.of_nat i + 1)
  ∧ ("Channel " ++ number 1 = "Channel 1"
     ∧ "Channel " ++ number 2 = "Channel 2"
     ∧ "Channel " ++ number 3 = "Channel 3"
     ∧ "Channel " ++ number 10 = "Channel 10").
Proof.
  intros Hmode fields Hseveral frame.
  assert (Hdata : QByteArray_isEmpty data = false).
  { destruct data; [cbn in Hseveral; lia | reflexivity]. }
  split; [exact (readData_QuickPlot w data Hmode Hdata)|]. split; [|split; [|split]].
  - subst frame. rewrite quickplot_frame_groups. fold fields.
    replace (1 <? length fields)%nat with true by (symmetry; apply Nat.ltb_lt; lia).
    replace (length fields =? 1)%nat with false by (symmetry; apply Nat.eqb_neq; lia).
    reflexivity.
  - intros groupId graph overview i field Hfield.
    unfold channels. rewrite list_lookup_imap.
    unfold QByteArray in Hfield |- *. rewrite Hfield. cbn [fmap option_fmap option_map].
    replace (Z.of_nat (S i)) with (Z.of_nat i + 1) by lia. reflexivity.
  - intros i. apply number_reads_back. lia.
  - repeat split.
Qed.

(** *** Loading a project file *)

(** A file that is read and is no JSON document: the frame is cleared, the
    file is closed and the stored path is emptied. *)
Lemma loadJsonMap_parse_error (w : World) (path : QString) (data : QByteArray)
    (errorString : QString) :
  QString_isEmpty path = false →
  files w path = Some data →
  QJsonDocument_fromJson data = ParseError errorString →
  let w' := exec (loadJsonMap path) w in
  m_frame w' = Frame.new
  ∧ isOpen (m_jsonMap w') = false
  ∧ m_settings w' !! "json_map_location" = Some (QvString "").
Proof.
  intros Hpath Hfile Hparse.
  unfold FrameBuilder.loadJsonMap. rewrite Hpath. run_steps.
  destruct (isOpen (m_jsonMap w)); cbn -[insert lookup app];
    repeat (first [rewrite Hfile | rewrite Hparse]; cbn -[insert lookup app]);
    rewrite lookup_insert_eq; repeat split.
Qed.

(** A JSON document that is not a valid frame: the path is stored first and
    emptied again, the frame is cleared and the file is closed. *)
Lemma loadJsonMap_invalid_frame (w : World) (path : QString) (data : QByteArray)
    (object : QJsonObject) :
  QString_isEmpty path = false →
  files w path = Some data →
  QJsonDocument_fromJson data = Document object →
  (let (ok, frame) := Frame_read object Frame.new in ok && Frame_isValid frame) = false →
  let w' := exec (loadJsonMap path) w in
  m_frame w' = Frame.new
  ∧ isOpen (m_jsonMap w') = false
  ∧ m_settings w' !! "json_map_location" = Some (QvString "").
Proof.
  intros Hpath Hfile Hparse Hinvalid.
  unfold FrameBuilder.loadJsonMap. rewrite Hpath. run_steps.
  destruct (isOpen (m_jsonMap w)); cbn -[insert lookup app];
    repeat (first [rewrite Hfile | rewrite Hparse]; cbn -[insert lookup app]);
    destruct (Frame_read object Frame.new) as [ok frame]; cbn -[insert lookup app];
    rewrite Hinvalid; cbn -[insert lookup app];
    rewrite lookup_insert_eq; repeat split.
Qed.

(** A file that cannot be opened: the stored path is emptied, and the frame
    is the one the builder held, cleared only if a project file was open. *)
Lemma loadJsonMap_open_error (w : World) (path : QString) :
  QString_isEmpty path = false →
  files w path = None →
  let w' := exec (loadJsonMap path) w in
  m_frame w' = (if isOpen (m_jsonMap w) then Frame.new else m_frame w)
  ∧ isOpen (m_jsonMap w') = false
  ∧ m_settings w' !! "json_map_location" = Some (QvString "").
Proof.
  intros Hpath Hfile.
  unfold FrameBuilder.loadJsonMap. rewrite Hpath. run_steps.
  destruct (isOpen (m_jsonMap w)); cbn -[insert lookup app];
    repeat (rewrite Hfile; cbn -[insert lookup app]);
    rewrite lookup_insert_eq; repeat split.
Qed.

End FrameBuilderProperties.

(** * The builder on concrete frames *)

(** The mutation pass with the fields 10, 20 and 30: the dataset of index 2
    takes 20 and the dataset of index 5 keeps its value. *)
Example replace_data_three_fields :
  replace_data ["10"; "20"; "30"] Sample.frame
  = Frame.mk "Weather"
      [Group.mk 0 "Air" "datagrid"
         [Dataset.mk 0 2 "Temperature" "20" "" false false;
          Dataset.mk 0 5 "Humidity" "40" "" true false]]
      "/*" "*/".
Proof. reflexivity. Qed.

Lemma readData_ProjectFile_values_witness :
  let w' := exec (Sample.readData "10;20;30") (Sample.project false) in
  (∃ group' dataset',
     Frame.m_groups (m_frame w') !! 0%nat = Some group'
     ∧ Group.m_datasets group' !! 0%nat = Some dataset'
     ∧ Dataset.m_value dataset' = "20")
  ∧ (∃ group' dataset',
       Frame.m_groups (m_frame w') !! 0%nat = Some group'
       ∧ Group.m_datasets group' !! 1%nat = Some dataset'
       ∧ Dataset.m_value dataset' = "40").
Proof.
  pose proof (readData_ProjectFile_values Sample.empty_object Sample.fromJson
                Sample.read id id id (Sample.project false) "10;20;30" Sample.parser
                eq_refl eq_refl eq_refl) as Hvalues.
  cbn zeta in Hvalues. split.
  - destruct (Hvalues 0%nat 0%nat _ _ eq_refl eq_refl) as (group' & dataset' & Hg & Hd & Hin & _).
    exists group', dataset'. split; [exact Hg|]. split; [exact Hd|].
    assert (Hfield : Some "20" = Some (Dataset.m_value dataset'))
      by (apply Hin; unfold names_field; cbn; lia).
    congruence.
  - destruct (Hvalues 0%nat 1%nat _ _ eq_refl eq_refl) as (group' & dataset' & Hg & Hd & _ & Hout).
    exists group', dataset'. split; [exact Hg|]. split; [exact Hd|].
    apply Hout. unfold names_field. cbn. lia.
Defined.

Lemma readData_ProjectFile_keeps_shape_witness :
  same_frame_but_values Sample.frame
    (m_frame (exec (Sample.readData "10;20;30") (Sample.project false))).
Proof.
  exact (proj1 (readData_ProjectFile_keeps_shape Sample.empty_object Sample.fromJson
                  Sample.read id id id (Sample.project false) "10;20;30" Sample.parser
                  eq_refl eq_refl eq_refl)).
Defined.

Lemma readData_DeviceSendsJSON_witness :
  let w := Sample.start DeviceSendsJSON None in
  observed w (exec (Sample.readData "{weather") w) []
  ∧ observed w (exec (Sample.readData "{}") w) []
  ∧ exec (Sample.readData Sample.text) w = published Sample.frame w.
Proof.
  intros w.
  assert (Hrefuses : ∀ frame, (Sample.read Sample.empty_object frame).1 = false)
    by reflexivity.
  split; [|split].
  - destruct (readData_DeviceSendsJSON Sample.empty_object Sample.fromJson Sample.read
                id id id w "{weather" Hrefuses eq_refl) as (Hsyntax & _ & _).
    apply Hsyntax. exists "illegal value". reflexivity.
  - destruct (readData_DeviceSendsJSON Sample.empty_object Sample.fromJson Sample.read
                id id id w "{}" Hrefuses eq_refl) as (_ & Hrefused & _).
    apply Hrefused. reflexivity.
  - destruct (readData_DeviceSendsJSON Sample.empty_object Sample.fromJson Sample.read
                id id id w Sample.text Hrefuses eq_refl) as (_ & _ & Haccepted).
    apply (Haccepted Sample.frame); reflexivity.
Defined.

Lemma readData_ProjectFile_without_project_witness :
  exec (Sample.readData "1;2") (Sample.start ProjectFile None)
  = Sample.start ProjectFile None
  ∧ exec (Sample.readData "1;2") (Sample.start ProjectFile (Some Sample.parser))
    = with_trace [Emit_frameChanged Frame.new] (Sample.start ProjectFile (Some Sample.parser)).
Proof.
  split.
  - apply (proj1 (readData_ProjectFile_without_project Sample.empty_object Sample.fromJson
                    Sample.read id id id (Sample.start ProjectFile None) "1;2" eq_refl)).
    reflexivity.
  - apply (proj2 (readData_ProjectFile_without_project Sample.empty_object Sample.fromJson
                    Sample.read id id id (Sample.start ProjectFile (Some Sample.parser))
                    "1;2" eq_refl) Sample.parser); reflexivity.
Defined.

(** C4 as it is written fails: without a project file, but with a parser, a
    message is answered with a signal that carries the empty frame. *)
Lemma readData_ProjectFile_without_project_counterexample :
  let w := Sample.start ProjectFile (Some Sample.parser) in
  let w' := exec (Sample.readData "1;2") w in
  m_frame w = Frame.new
  ∧ isOpen (m_jsonMap w) = false
  ∧ m_settings w !! "json_map_location" = None
  ∧ trace w' = [Emit_frameChanged Frame.new]
  ∧ ¬ observed w w' [].
Proof.
  repeat split. unfold observed. cbn. discriminate.
Qed.

Lemma readData_ProjectFile_playback_witness :
  exec (Sample.readData " 10, 20 ,30 ") (Sample.project true)
  = published (replace_data ["10"; " 20 "; "30"] Sample.frame) (Sample.project true).
Proof.
  apply (readData_ProjectFile_playback Sample.empty_object Sample.fromJson Sample.read
           id id id (Sample.project true) " 10, 20 ,30 " Sample.parser
           eq_refl eq_refl eq_refl eq_refl).
Defined.

(** C9 as it is written fails: the fields of a played frame are cut from
    the simplified bytes, not from the bytes as they came. *)
Lemma readData_ProjectFile_playback_counterexample :
  let data := " 1,2 " in
  let w' := exec (Sample.readData data) (Sample.project true) in
  FrameBuilder.project_fields id id id Sample.parser true PlainText data = ["1"; "2"]
  ∧ split comma (id data) = [" 1"; "2 "]
  ∧ FrameBuilder.project_fields id id id Sample.parser true PlainText data
    ≠ split comma (id data)
  ∧ m_frame w' ≠ replace_data (split comma (id data)) Sample.frame.
Proof.
  repeat split; cbv; discriminate.
Qed.

Lemma readData_QuickPlot_one_field_witness :
  Frame.m_groups (quickplot_frame id "7")
  = [Group.mk 0 "Quick Plot Data" "datagrid"
       [Dataset.mk 0 1 "Channel 1" "7" "" false false];
     Group.mk 2 "Individual Plots" ""
       [Dataset.mk 2 1 "Channel 1" "7" "" true true]].
Proof.
  apply (readData_QuickPlot_one_field Sample.empty_object Sample.fromJson Sample.read
           id id id (Sample.start QuickPlot None) "7" eq_refl eq_refl eq_refl).
Defined.

Lemma readData_QuickPlot_several_fields_witness :
  Frame.m_groups (quickplot_frame id "7,8,9")
  = [Group.mk 0 "Quick Plot Data" "datagrid"
       [Dataset.mk 0 1 "Channel 1" "7" "" false false;
        Dataset.mk 0 2 "Channel 2" "8" "" false false;
        Dataset.mk 0 3 "Channel 3" "9" "" false false];
     Group.mk 1 "Multiple Plots" "multiplot"
       [Dataset.mk 1 1 "Channel 1" "7" "" false false;
        Dataset.mk 1 2 "Channel 2" "8" "" false false;
        Dataset.mk 1 3 "Channel 3" "9" "" false false];
     Group.mk 2 "Individual Plots" ""
       [Dataset.mk 2 1 "Channel 1" "7" "" true false;
        Dataset.mk 2 2 "Channel 2" "8" "" true false;
        Dataset.mk 2 3 "Channel 3" "9" "" true false]]
  ∧ (channels id 2 true false (split comma "1,2,3,4,5,6,7,8,9,10,11")) !! 10%nat
    = Some (Dataset.mk 2 11 "Channel 11" "11" "" true false).
Proof.
  assert (Hseveral : (1 < length (split comma "7,8,9"))%nat) by (cbn; lia).
  assert (Hmore : (1 < length (split comma "1,2,3,4,5,6,7,8,9,10,11"))%nat) by (cbn; lia).
  split.
  - exact (proj1 (proj2 (readData_QuickPlot_several_fields Sample.empty_object
                           Sample.fromJson Sample.read id id id (Sample.start QuickPlot None)
                           "7,8,9" eq_refl Hseveral))).
  - exact (proj1 (proj2 (proj2 (readData_QuickPlot_several_fields Sample.empty_object
                                  Sample.fromJson Sample.read id id id
                                  (Sample.start QuickPlot None) "1,2,3,4,5,6,7,8,9,10,11"
                                  eq_refl Hmore)))
             2 true false 10%nat "11" eq_refl).
Defined.

(** C2 on the open error: the builder receives a frame as JSON, which fills
    [m_frame] while no project file is open, and is then asked to load a file
    that cannot be opened.  The stored path is emptied, the frame is not
    cleared. *)
Theorem loadJsonMap_open_error_keeps_frame :
  let w0 := Sample.start DeviceSendsJSON None in
  let w1 := exec (Sample.readData Sample.text) w0 in
  let w2 := exec (Sample.loadJsonMap "missing.json") w1 in
  files w1 "missing.json" = None
  ∧ isOpen (m_jsonMap w1) = false
  ∧ m_frame w1 = Sample.frame
  ∧ m_frame w2 = Sample.frame
  ∧ m_frame w2 ≠ Frame.new
  ∧ m_settings w2 !! "json_map_location" = Some (QvString "")
  ∧ trace w2
    = [Emit_frameChanged Sample.frame;
       Settings_setValue "json_map_location" (QvString "");
       ShowMessageBox "Cannot read JSON file" "Please check file permissions & location";
       Emit_jsonFileMapChanged].
Proof.
  cbn zeta.
  destruct (loadJsonMap_open_error Sample.fromJson Sample.read Sample.isValid
              (exec (Sample.readData Sample.text) (Sample.start DeviceSendsJSON None))
              "missing.json" eq_refl eq_refl) as (Hframe & _ & Hsetting).
  repeat split; try exact Hsetting; try discriminate.
Qed.

(** * Further properties of the member functions *)

Section FrameBuilderFurther.
Context {QJsonObject : Type}.
Context (QJsonObject_empty : QJsonObject).
Context (QJsonDocument_fromJson : QByteArray → QJsonDocument QJsonObject).
Context (Frame_read : QJsonObject → Frame.t → bool * Frame.t).
Context (Frame_isValid : Frame.t → bool).
Context (QString_fromUtf8 : QByteArray → QString).
Context (QByteArray_toHex QByteArray_toBase64 : QByteArray → QByteArray).

Local Abbreviation readData :=
  (FrameBuilder.readData QJsonObject_empty QJsonDocument_fromJson Frame_read
     QString_fromUtf8 QByteArray_toHex QByteArray_toBase64).
Local Abbreviation frameReceived :=
  (FrameBuilder.frameReceived QJsonObject_empty QJsonDocument_fromJson Frame_read
     QString_fromUtf8 QByteArray_toHex QByteArray_toBase64).
Local Abbreviation loadJsonMap :=
  (FrameBuilder.loadJsonMap QJsonDocument_fromJson Frame_read Frame_isValid).
Local Abbreviation loadJsonMap_fromDialog :=
  (FrameBuilder.loadJsonMap_fromDialog QJsonDocument_fromJson Frame_read Frame_isValid).
Local Abbreviation project_fields :=
  (FrameBuilder.project_fields QString_fromUtf8 QByteArray_toHex QByteArray_toBase64).

(** ** One frame of the device *)

(** The world [readData] leaves, mode by mode. *)
Lemma readData_cases (w : World) (data : QByteArray) :
  exec (readData data) w
  = if QByteArray_isEmpty data then w else
    match m_opMode w with
    | DeviceSendsJSON =>
        let (ok, frame) :=
          Frame_read (QJsonDocument_object QJsonObject_empty (QJsonDocument_fromJson data))
            (m_frame w) in
        if ok then published frame w else with_frame frame w
    | ProjectFile =>
        match m_frameParser w with
        | Some parser =>
            published
              (replace_data
                 (project_fields parser (csvPlayer_isOpen w) (projectModel_decoderMethod w) data)
                 (m_frame w))
              w
        | None => w
        end
    | QuickPlot =>
        with_trace (trace w ++ [Emit_frameChanged (quickplot_frame QString_fromUtf8 data)])%list w
    | InvalidMode _ => w
    end.
Proof.
  destruct (QByteArray_isEmpty data) eqn:Hdata.
  { unfold exec, FrameBuilder.readData. rewrite Hdata. reflexivity. }
  destruct (m_opMode w) as [| | |raw] eqn:Hmode.
  - destruct (m_frameParser w) as [parser|] eqn:Hparser.
    + exact (readData_ProjectFile _ _ _ _ _ _ w data parser Hmode Hparser Hdata).
    + exact (readData_ProjectFile_no_parser _ _ _ _ _ _ w data Hmode Hparser).
  - exact (DeviceSendsJSON_step _ _ _ _ _ _ w data Hmode Hdata).
  - exact (readData_QuickPlot _ _ _ _ _ _ w data Hmode Hdata).
  - unfold exec, FrameBuilder.readData. rewrite Hdata.
    unfold mbind, M_bind, FrameBuilder.operationMode, FrameBuilder.frameParser, gets.
    rewrite Hmode. repeat case_decide; try congruence; reflexivity.
Qed.

(** X1: reading a frame changes at most the held frame and the trace: the
    mode, the parser, the project file, the settings, the sequences of the
    I/O manager, the CSV player, the decoder method and the disk are as
    before, in every mode and for every frame. *)
Theorem readData_touches_frame_only (w : World) (data : QByteArray) :
  let w' := exec (readData data) w in
  m_opMode w' = m_opMode w
  ∧ m_frameParser w' = m_frameParser w
  ∧ m_jsonMap w' = m_jsonMap w
  ∧ m_settings w' = m_settings w
  ∧ io_startSequence w' = io_startSequence w
  ∧ io_finishSequence w' = io_finishSequence w
  ∧ csvPlayer_isOpen w' = csvPlayer_isOpen w
  ∧ projectModel_decoderMethod w' = projectModel_decoderMethod w
  ∧ files w' = files w.
Proof.
  cbn zeta. rewrite readData_cases.
  destruct (QByteArray_isEmpty data); [repeat split|].
  destruct (m_opMode w) eqn:Hmode;
    [destruct (m_frameParser w) eqn:Hparser|destruct (Frame_read _ _) as [[|] ?]| |];
    repeat split; cbn; assumption.
Qed.

(** X2: reading a frame is observed as nothing or as one [frameChanged],
    never as a message box, a write to the settings or a call of the I/O
    manager; outside the quick plot mode the frame of the signal is the frame
    the builder holds afterwards. *)
Theorem readData_emits_at_most_one_frame (w : World) (data : QByteArray) :
  let w' := exec (readData data) w in
  observed w w' []
  ∨ ∃ frame, observed w w' [Emit_frameChanged frame]
             ∧ (m_opMode w ≠ QuickPlot → frame = m_frame w').
Proof.
  cbn zeta. rewrite readData_cases. unfold observed.
  assert (Hnone : trace w = (trace w ++ [])%list) by (rewrite app_nil_r; reflexivity).
  destruct (QByteArray_isEmpty data); [left; exact Hnone|].
  destruct (m_opMode w) as [| | |raw].
  - destruct (m_frameParser w) as [parser|]; [|left; exact Hnone].
    right. eexists. split; [reflexivity|]. reflexivity.
  - destruct (Frame_read _ _) as [[|] frame]; [|left; exact Hnone].
    right. exists frame. split; reflexivity.
  - right. eexists. split; [reflexivity|]. intros Hmode. congruence.
  - left. exact Hnone.
Qed.

(** X3: a quick plot does not touch the frame the builder holds: but for
    the signal in the trace the world is as before, so a loaded project
    survives any number of quick plot frames. *)
Theorem readData_QuickPlot_keeps_state (w : World) (data : QByteArray) :
  m_opMode w = QuickPlot →
  state (exec (readData data) w) = state w
  ∧ m_frame (exec (readData data) w) = m_frame w.
Proof.
  intros Hmode. rewrite readData_cases, Hmode.
  destruct (QByteArray_isEmpty data); split; reflexivity.
Qed.

(** X4: with a mode that is none of the three, every frame is ignored. *)
Theorem readData_invalid_mode (w : World) (data : QByteArray) (raw : Z) :
  m_opMode w = InvalidMode raw →
  exec (readData data) w = w.
Proof.
  intros Hmode. rewrite readData_cases, Hmode.
  destruct (QByteArray_isEmpty data); reflexivity.
Qed.

(** ** The mutation pass, once more *)

Lemma replace_dataset_twice (fields : QStringList) (dataset : Dataset.t) :
  replace_dataset fields (replace_dataset fields dataset) = replace_dataset fields dataset.
Proof.
  destruct (decide (names_field (Dataset.index dataset) (length fields))) as [Hin|Hout].
  - destruct (replace_dataset_in_range fields dataset Hin) as (field & Hfield & Hset).
    rewrite Hset.
    destruct (replace_dataset_in_range fields (Dataset.set_value field dataset) Hin)
      as (field' & Hfield' & ->).
    cbn in Hfield'. unfold Dataset.index in Hfield. rewrite Hfield in Hfield'.
    injection Hfield' as <-. reflexivity.
  - rewrite (replace_dataset_out_of_range fields dataset Hout).
    apply replace_dataset_out_of_range, Hout.
Qed.

Lemma replace_group_twice (fields : QStringList) (group : Group.t) :
  replace_group fields (replace_group fields group) = replace_group fields group.
Proof.
  rewrite !replace_group_fmap. unfold Group.set_datasets.
  cbn [Group.m_datasets Group.m_groupId Group.m_title Group.m_widget].
  f_equal. rewrite <- list_fmap_compose. apply list_fmap_ext.
  intros _ dataset _. apply replace_dataset_twice.
Qed.

Lemma replace_data_twice (fields : QStringList) (frame : Frame.t) :
  replace_data fields (replace_data fields frame) = replace_data fields frame.
Proof.
  rewrite !replace_data_fmap. unfold Frame.set_groups.
  cbn [Frame.m_groups Frame.m_title Frame.m_frameStart Frame.m_frameEnd].
  f_equal. rewrite <- list_fmap_compose. apply list_fmap_ext.
  intros _ group _. apply replace_group_twice.
Qed.

(** X5: in project mode the same bytes read twice give the same frame
    twice: the second reading leaves the held frame as the first left it,
    and both signals carry that frame. *)
Theorem readData_ProjectFile_twice
    (w : World) (data : QByteArray) (parser : FrameParser) :
  m_opMode w = ProjectFile →
  m_frameParser w = Some parser →
  QByteArray_isEmpty data = false →
  let once := exec (readData data) w in
  let twice := exec (readData data) once in
  m_frame twice = m_frame once
  ∧ observed w twice [Emit_frameChanged (m_frame once); Emit_frameChanged (m_frame once)].
Proof.
  intros Hmode Hparser Hdata once twice.
  assert (Honce : once = published
                           (replace_data
                              (project_fields parser (csvPlayer_isOpen w)
                                 (projectModel_decoderMethod w) data)
                              (m_frame w)) w)
    by exact (readData_ProjectFile _ _ _ _ _ _ w data parser Hmode Hparser Hdata).
  assert (Htwice : twice = published
                             (replace_data
                                (project_fields parser (csvPlayer_isOpen once)
                                   (projectModel_decoderMethod once) data)
                                (m_frame once)) once).
  { apply (readData_ProjectFile _ _ _ _ _ _ once data parser); [| |exact Hdata];
      rewrite Honce; assumption. }
  rewrite Htwice. unfold observed. rewrite Honce. cbn.
  rewrite replace_data_twice, <- app_assoc. split; reflexivity.
Qed.

Lemma replace_group_unnamed (fields : QStringList) (group : Group.t) :
  Forall (λ dataset, ¬ names_field (Dataset.index dataset) (length fields))
    (Group.m_datasets group) →
  replace_group fields group = group.
Proof.
  intros Hunnamed. rewrite replace_group_fmap.
  destruct group as [id title widget datasets]. unfold Group.set_datasets.
  cbn [Group.m_datasets Group.m_groupId Group.m_title Group.m_widget] in *.
  f_equal. induction Hunnamed as [|dataset datasets Hdataset _ IH]; [reflexivity|].
  rewrite fmap_cons, IH, (replace_dataset_out_of_range fields dataset Hdataset).
  reflexivity.
Qed.

Lemma replace_data_unnamed (fields : QStringList) (frame : Frame.t) :
  Forall (λ group,
            Forall (λ dataset, ¬ names_field (Dataset.index dataset) (length fields))
              (Group.m_datasets group))
         (Frame.m_groups frame) →
  replace_data fields frame = frame.
Proof.
  intros Hunnamed. rewrite replace_data_fmap.
  destruct frame as [title groups frameStart frameEnd]. unfold Frame.set_groups.
  cbn [Frame.m_groups Frame.m_title Frame.m_frameStart Frame.m_frameEnd] in *.
  f_equal. induction Hunnamed as [|group groups Hgroup _ IH]; [reflexivity|].
  rewrite fmap_cons, IH, (replace_group_unnamed fields group Hgroup).
  reflexivity.
Qed.

(** X6: in project mode a frame whose fields no dataset names (every index
    is 0, negative or beyond the number of fields; in particular when the
    parser finds no field at all) changes no value, and the held frame is
    emitted all the same. *)
Theorem readData_ProjectFile_unnamed_fields
    (w : World) (data : QByteArray) (parser : FrameParser) :
  m_opMode w = ProjectFile →
  m_frameParser w = Some parser →
  QByteArray_isEmpty data = false →
  let fields :=
    project_fields parser (csvPlayer_isOpen w) (projectModel_decoderMethod w) data in
  (fields = []
   ∨ Forall (λ group,
               Forall (λ dataset, ¬ names_field (Dataset.index dataset) (length fields))
                 (Group.m_datasets group))
            (Frame.m_groups (m_frame w))) →
  exec (readData data) w = with_trace (trace w ++ [Emit_frameChanged (m_frame w)])%list w.
Proof.
  intros Hmode Hparser Hdata fields Hunnamed.
  rewrite (readData_ProjectFile _ _ _ _ _ _ w data parser Hmode Hparser Hdata).
  fold fields. rewrite replace_data_unnamed.
  - unfold published. destruct w; reflexivity.
  - destruct Hunnamed as [-> | Hunnamed]; [|exact Hunnamed].
    apply Forall_forall. intros group _. apply Forall_forall. intros dataset _.
    unfold names_field. cbn. lia.
Qed.

Lemma simplified_spacing (st : SimplifyState) (s : string) :
  all_spacing s = true →
  simplified_from st s = EmptyString.
Proof.
  revert st. induction s as [|c rest IH]; intros st Hspacing; [reflexivity|].
  cbn in *. apply andb_prop in Hspacing as [-> Hrest].
  apply IH, Hrest.
Qed.

(** X7: while the CSV player is open, a frame of spacing characters only
    (a blank line) is read as one empty field: with a text decoder that
    turns no bytes into the empty text, the datasets of index 1 are emptied
    and every other dataset keeps its value. *)
Theorem readData_ProjectFile_blank_line
    (w : World) (data : QByteArray) (parser : FrameParser) :
  QString_fromUtf8 EmptyString = EmptyString →
  m_opMode w = ProjectFile →
  m_frameParser w = Some parser →
  csvPlayer_isOpen w = true →
  QByteArray_isEmpty data = false →
  all_spacing data = true →
  exec (readData data) w = published (replace_data [EmptyString] (m_frame w)) w
  ∧ ∀ dataset,
      Dataset.m_value (replace_dataset [EmptyString] dataset)
      = if decide (Dataset.index dataset = 1) then EmptyString else Dataset.m_value dataset.
Proof.
  intros Hutf8 Hmode Hparser Hplaying Hdata Hspacing. split.
  - rewrite (readData_ProjectFile _ _ _ _ _ _ w data parser Hmode Hparser Hdata), Hplaying.
    unfold FrameBuilder.project_fields, FrameBuilder.csv_fields, simplified. cbn [negb].
    rewrite (simplified_spacing AtStart data Hspacing), Hutf8. reflexivity.
  - intros dataset. case_decide as Hindex.
    + destruct (replace_dataset_in_range [EmptyString] dataset) as (field & Hfield & ->).
      { unfold names_field. cbn. lia. }
      rewrite Hindex in Hfield. cbn in Hfield. injection Hfield as <-. reflexivity.
    + rewrite replace_dataset_out_of_range; [reflexivity|].
      unfold names_field. cbn. lia.
Qed.

(** ** Quick plots, for any number of fields *)

Lemma split_length (sep : ascii) (s : string) :
  length (split sep s) = S (occurrences sep s).
Proof.
  induction s as [|c rest IH]; [reflexivity|]. cbn.
  destruct (Ascii.eqb c sep); cbn; [rewrite IH; reflexivity|].
  destruct (split sep rest) as [|piece pieces] eqn:Hrest.
  - exfalso. exact (split_not_nil sep rest Hrest).
  - exact IH.
Qed.

Lemma join_split (sep : ascii) (s : string) :
  join sep (split sep s) = s.
Proof.
  induction s as [|c rest IH]; [reflexivity|]. cbn [split].
  destruct (Ascii.eqb_spec c sep) as [->|Hc].
  - destruct (split sep rest) as [|piece pieces] eqn:Hrest.
    + exfalso. exact (split_not_nil sep rest Hrest).
    + change (join sep (EmptyString :: piece :: pieces))
        with (String sep (join sep (piece :: pieces))).
      rewrite IH. reflexivity.
  - destruct (split sep rest) as [|piece pieces] eqn:Hrest.
    + exfalso. exact (split_not_nil sep rest Hrest).
    + destruct pieces as [|piece' pieces].
      * change (join sep [piece]) with piece in IH. rewrite IH. reflexivity.
      * change (join sep (String c piece :: piece' :: pieces))
          with (String c (join sep (piece :: piece' :: pieces))).
        rewrite IH. reflexivity.
Qed.

Lemma split_pieces (sep : ascii) (s : string) :
  Forall (λ piece, occurrences sep piece = O) (split sep s).
Proof.
  induction s as [|c rest IH]; [repeat constructor|]. cbn [split].
  destruct (Ascii.eqb c sep) eqn:Hc.
  - constructor; [reflexivity|exact IH].
  - destruct (split sep rest) as [|piece pieces]; [repeat constructor; cbn; rewrite Hc; reflexivity|].
    inversion IH as [|? ? Hpiece Hpieces]; subst.
    constructor; [cbn; rewrite Hc; exact Hpiece|exact Hpieces].
Qed.

Lemma channels_length (groupId : Z) (graph overview : bool) (fields : list QByteArray) :
  length (channels QString_fromUtf8 groupId graph overview fields) = length fields.
Proof. apply length_imap. Qed.

Lemma channels_values (groupId : Z) (graph overview : bool) (fields : list QByteArray) :
  Dataset.m_value <$> channels QString_fromUtf8 groupId graph overview fields
  = QString_fromUtf8 <$> fields.
Proof.
  unfold channels. rewrite fmap_imap, <- imap_const. apply imap_ext.
  intros i field _. reflexivity.
Qed.

(** X8: in the quick plot mode the emitted frame has two groups for bytes
    without a comma and three otherwise, and every group has one dataset more
    than the bytes have commas. *)
Theorem readData_QuickPlot_counts (w : World) (data : QByteArray) :
  m_opMode w = QuickPlot →
  QByteArray_isEmpty data = false →
  ∃ frame,
    observed w (exec (readData data) w) [Emit_frameChanged frame]
    ∧ length (Frame.m_groups frame)
      = (if (occurrences comma data =? 0)%nat then 2 else 3)%nat
    ∧ Forall (λ group, length (Group.m_datasets group) = S (occurrences comma data))
        (Frame.m_groups frame).
Proof.
  intros Hmode Hdata. exists (quickplot_frame QString_fromUtf8 data).
  split; [rewrite (readData_QuickPlot _ _ _ _ _ _ w data Hmode Hdata); reflexivity|].
  rewrite quickplot_frame_groups, split_length.
  assert (Hcount : ∀ groupId graph overview,
             length (channels QString_fromUtf8 groupId graph overview (split comma data))
             = S (occurrences comma data))
    by (intros; rewrite channels_length; apply split_length).
  destruct (occurrences comma data) as [|n]; cbn [Nat.ltb Nat.leb Nat.eqb app length];
    (split; [reflexivity|]);
    repeat (apply Forall_cons_2; [apply Hcount|]); apply Forall_nil_2.
Qed.

(** X9: in the quick plot mode nothing of the bytes is lost or trimmed: in
    every group of the emitted frame the values are, in order, the texts of
    the pieces between the commas; the pieces hold no comma, and put together
    with commas they are the bytes that were received. *)
Theorem readData_QuickPlot_values (w : World) (data : QByteArray) :
  m_opMode w = QuickPlot →
  QByteArray_isEmpty data = false →
  ∃ frame,
    observed w (exec (readData data) w) [Emit_frameChanged frame]
    ∧ Forall (λ group,
                Dataset.m_value <$> Group.m_datasets group
                = QString_fromUtf8 <$> split comma data)
        (Frame.m_groups frame)
    ∧ join comma (split comma data) = data
    ∧ Forall (λ piece, occurrences comma piece = O) (split comma data).
Proof.
  intros Hmode Hdata. exists (quickplot_frame QString_fromUtf8 data).
  split; [rewrite (readData_QuickPlot _ _ _ _ _ _ w data Hmode Hdata); reflexivity|].
  split; [|split; [apply join_split|apply split_pieces]].
  rewrite quickplot_frame_groups.
  destruct (1 <? length (split comma data))%nat; cbn [app];
    repeat (apply Forall_cons_2; [apply channels_values|]); apply Forall_nil_2.
Qed.

(** ** The frames of a session *)

Lemma exec_then (first second : M unit) (w : World) :
  exec (first;; second) w = exec second (exec first w).
Proof. unfold exec, mbind, M_bind. destruct (first w). reflexivity. Qed.

Lemma frameReceived_cons (data : QByteArray) (rest : list QByteArray) (w : World) :
  exec (frameReceived (data :: rest)) w
  = exec (frameReceived rest) (exec (readData data) w).
Proof. apply exec_then. Qed.




(** X11: in the quick plot mode the frames of a session are independent of
    each other: what is observed is, in order, one signal per frame with
    bytes, carrying the quick plot of these bytes alone; nothing else in the
    world changes. *)
Theorem frameReceived_QuickPlot (frames : list QByteArray) (w : World) :
  m_opMode w = QuickPlot →
  exec (frameReceived frames) w
  = with_trace
      (trace w
       ++ ((λ data, Emit_frameChanged (quickplot_frame QString_fromUtf8 data))
             <$> filter (λ data, QByteArray_isEmpty data = false) frames))%list
      w.
Proof.
  revert w. induction frames as [|data frames IH]; intros w Hmode.
  - cbn. rewrite app_nil_r. destruct w; reflexivity.
  - rewrite frameReceived_cons, readData_cases, Hmode.
    destruct (QByteArray_isEmpty data) eqn:Hdata.
    + rewrite filter_cons_False by (rewrite Hdata; discriminate). apply IH, Hmode.
    + rewrite filter_cons_True by exact Hdata.
      rewrite IH by exact Hmode. cbn. rewrite <- app_assoc. reflexivity.
Qed.

(** ** Loading a project file, outcome by outcome *)

Local Abbreviation outcome_of :=
  (load_outcome QJsonDocument_fromJson Frame_read Frame_isValid).

(** The branches of [loadJsonMap] for a path that is not empty. *)
Ltac load_cases w path Hpath :=
  let bytes := fresh "bytes" in
  let text := fresh "text" in
  let root := fresh "root" in
  let ok := fresh "ok" in
  let read := fresh "read" in
  unfold FrameBuilder.loadJsonMap, load_outcome;
  rewrite Hpath; run_steps;
  destruct (isOpen (m_jsonMap w)) eqn:Hopen; cbn -[insert lookup app];
  (destruct (files w path) as [bytes|] eqn:Hfile; cbn -[insert lookup app];
   [ rewrite ?Hfile; cbn -[insert lookup app];
     destruct (QJsonDocument_fromJson bytes) as [text|root] eqn:Hparse;
     cbn -[insert lookup app];
     [ | destruct (Frame_read root Frame.new) as [ok read] eqn:Hread;
         cbn -[insert lookup app];
         destruct (ok && Frame_isValid read) eqn:Hvalid; cbn -[insert lookup app];
         [ destruct (decide (m_opMode w = ProjectFile)) as [Hmode|Hmode];
           cbn -[insert lookup app] | ] ]
   | ]).

(** X12: without a path nothing is loaded and nothing is announced: the
    world is as before for the empty path, and so it is when the dialog is
    cancelled; a file chosen in the dialog is loaded like any path. *)
Theorem loadJsonMap_without_path (w : World) :
  exec (loadJsonMap EmptyString) w = w
  ∧ exec (loadJsonMap_fromDialog EmptyString) w = w
  ∧ ∀ file, exec (loadJsonMap_fromDialog file) w = exec (loadJsonMap file) w.
Proof.
  split; [reflexivity|]. split; [reflexivity|].
  intros file. unfold FrameBuilder.loadJsonMap_fromDialog, FrameBuilder.loadJsonMap.
  destruct (QString_isEmpty file); reflexivity.
Qed.

(** X13: a file that opens, parses and reads as a valid frame is loaded:
    the builder holds the frame read from the cleared frame (nothing of the
    frame held before is left), the file stays open under the path, and the
    path is stored.  In project mode the I/O manager is given the finish and
    then the start sequence of the new frame; in the other modes its
    sequences are not touched.  No message box is shown, and
    [jsonFileMapChanged] ends the load (and follows the closing of a file that
    was open). *)
Theorem loadJsonMap_loaded (w : World) (path : QString) (frame : Frame.t) :
  QString_isEmpty path = false →
  outcome_of w path = Loaded frame →
  let w' := exec (loadJsonMap path) w in
  m_frame w' = frame
  ∧ m_jsonMap w' = mkQFile path true
  ∧ m_settings w' !! "json_map_location" = Some (QvString path)
  ∧ io_startSequence w'
    = (if decide (m_opMode w = ProjectFile) then Frame.frameStart frame
       else io_startSequence w)
  ∧ io_finishSequence w'
    = (if decide (m_opMode w = ProjectFile) then Frame.frameEnd frame
       else io_finishSequence w)
  ∧ observed w w'
      ((if isOpen (m_jsonMap w) then [Emit_jsonFileMapChanged] else [])
       ++ [Settings_setValue "json_map_location" (QvString path)]
       ++ (if decide (m_opMode w = ProjectFile)
           then [IO_setFinishSequence (Frame.frameEnd frame);
                 IO_setStartSequence (Frame.frameStart frame)]
           else [])
       ++ [Emit_jsonFileMapChanged])%list.
Proof.
  intros Hpath. unfold observed. cbn zeta.
  load_cases w path Hpath; intros Hloaded; try discriminate;
    injection Hloaded as <-; rewrite ?lookup_insert_eq, <- ?app_assoc;
    repeat split.
Qed.

(** X14: a load that fails leaves the file closed and the stored path
    empty, shows one message box and never calls the I/O manager, whose
    sequences stay as they were.  What is observed is, after the signal for a
    file that was open: for a file that cannot be opened, the emptied path,
    the box and [jsonFileMapChanged]; for a syntax error the same with the
    text of the error, and the frame is cleared; for a document that is no
    valid frame, the path stored and emptied again, the box and the signal,
    and the frame is cleared. *)
Theorem loadJsonMap_failed (w : World) (path : QString) :
  QString_isEmpty path = false →
  let w' := exec (loadJsonMap path) w in
  let reopened := if isOpen (m_jsonMap w) then [Emit_jsonFileMapChanged] else [] in
  let emptied := Settings_setValue "json_map_location" (QvString "") in
  let closed :=
    m_jsonMap w' = mkQFile path false
    ∧ m_settings w' !! "json_map_location" = Some (QvString "")
    ∧ io_startSequence w' = io_startSequence w
    ∧ io_finishSequence w' = io_finishSequence w in
  match outcome_of w path with
  | OpenError =>
      closed
      ∧ observed w w'
          (reopened
           ++ [emptied;
               ShowMessageBox "Cannot read JSON file" "Please check file permissions & location";
               Emit_jsonFileMapChanged])%list
  | SyntaxError errorString =>
      closed
      ∧ m_frame w' = Frame.new
      ∧ observed w w'
          (reopened
           ++ [emptied; ShowMessageBox "JSON parse error" errorString;
               Emit_jsonFileMapChanged])%list
  | InvalidFrame =>
      closed
      ∧ m_frame w' = Frame.new
      ∧ observed w w'
          (reopened
           ++ [Settings_setValue "json_map_location" (QvString path); emptied;
               ShowMessageBox "Invalid JSON project format" "";
               Emit_jsonFileMapChanged])%list
  | Loaded _ => True
  end.
Proof.
  intros Hpath. unfold observed. cbn zeta.
  load_cases w path Hpath; rewrite ?lookup_insert_eq, <- ?app_assoc; repeat split.
Qed.

(** X15: after a load the stored path tells whether a project is open: for
    every path that is not empty the file of the builder carries the path, it
    is open exactly when the load ended with a frame, and the stored path is
    the path when the file is open and empty when it is not.
    [jsonMapFilepath] and [jsonMapFilename] answer with the file information
    of the path in the first case and with the empty text in the second. *)
Theorem loadJsonMap_stored_path (w : World) (path : QString) :
  QString_isEmpty path = false →
  let w' := exec (loadJsonMap path) w in
  let open := isOpen (m_jsonMap w') in
  fileName (m_jsonMap w') = path
  ∧ (open = true ↔ ∃ frame, outcome_of w path = Loaded frame)
  ∧ m_settings w' !! "json_map_location"
    = Some (QvString (if open then path else EmptyString))
  ∧ ∀ QFileInfo_filePath QFileInfo_fileName,
      (FrameBuilder.jsonMapFilepath QFileInfo_filePath w').1
      = (if open then QFileInfo_filePath path else EmptyString)
      ∧ (FrameBuilder.jsonMapFilename QFileInfo_fileName w').1
        = (if open then QFileInfo_fileName path else EmptyString).
Proof.
  intros Hpath. cbn zeta.
  unfold FrameBuilder.jsonMapFilepath, FrameBuilder.jsonMapFilename.
  load_cases w path Hpath; rewrite ?lookup_insert_eq;
    (split; [reflexivity|]);
    (split; [split; [intros; try discriminate; eexists; reflexivity
                    |intros [? ?]; try discriminate; reflexivity]|]);
    (split; [reflexivity|]); intros; split; reflexivity.
Qed.

(** What no load touches. *)
Lemma loadJsonMap_fields_kept (w : World) (path : QString) :
  let w' := exec (loadJsonMap path) w in
  m_opMode w' = m_opMode w
  ∧ m_frameParser w' = m_frameParser w
  ∧ m_settings w' !! "operation_mode" = m_settings w !! "operation_mode"
  ∧ csvPlayer_isOpen w' = csvPlayer_isOpen w
  ∧ projectModel_decoderMethod w' = projectModel_decoderMethod w
  ∧ files w' = files w.
Proof.
  cbn zeta. destruct (QString_isEmpty path) eqn:Hpath.
  { unfold FrameBuilder.loadJsonMap. rewrite Hpath. repeat split. }
  load_cases w path Hpath; rewrite ?lookup_insert_ne by discriminate; repeat split.
Qed.

(** X16: a load changes neither the operation mode nor the registered
    parser nor the stored operation mode, and it leaves the CSV player, the
    decoder method and the disk alone, whatever the path and the outcome. *)
Theorem loadJsonMap_keeps_mode (w : World) (path : QString) :
  let w' := exec (loadJsonMap path) w in
  m_opMode w' = m_opMode w
  ∧ m_frameParser w' = m_frameParser w
  ∧ m_settings w' !! "operation_mode" = m_settings w !! "operation_mode"
  ∧ csvPlayer_isOpen w' = csvPlayer_isOpen w
  ∧ projectModel_decoderMethod w' = projectModel_decoderMethod w
  ∧ files w' = files w.
Proof.
  cbn zeta. destruct (QString_isEmpty path) eqn:Hpath.
  - unfold FrameBuilder.loadJsonMap. rewrite Hpath. repeat split.
  - load_cases w path Hpath; rewrite ?lookup_insert_ne by discriminate; repeat split.
Qed.

(** ** Changing the mode, and loading *)

(** Two worlds with the same members, singletons, disk and trace are one. *)
Lemma World_ext (a b : World) :
  m_opMode a = m_opMode b →
  m_frameParser a = m_frameParser b →
  m_frame a = m_frame b →
  m_jsonMap a = m_jsonMap b →
  m_settings a = m_settings b →
  io_startSequence a = io_startSequence b →
  io_finishSequence a = io_finishSequence b →
  csvPlayer_isOpen a = csvPlayer_isOpen b →
  projectModel_decoderMethod a = projectModel_decoderMethod b →
  files a = files b →
  trace a = trace b →
  a = b.
Proof. destruct a, b. cbn. intros. subst. reflexivity. Qed.

Ltac same_world :=
  apply World_ext; cbn -[insert lookup app];
  rewrite ?insert_insert_eq; try reflexivity.

(** X17: changing the operation mode leaves the project alone: the parser,
    the project file and the stored path are as before, and so are the CSV
    player, the decoder method and the disk. *)
Theorem setOperationMode_keeps_project (mode : OperationMode) (w : World) :
  let w' := exec (FrameBuilder.setOperationMode mode) w in
  m_frameParser w' = m_frameParser w
  ∧ m_jsonMap w' = m_jsonMap w
  ∧ m_settings w' !! "json_map_location" = m_settings w !! "json_map_location"
  ∧ csvPlayer_isOpen w' = csvPlayer_isOpen w
  ∧ projectModel_decoderMethod w' = projectModel_decoderMethod w
  ∧ files w' = files w.
Proof.
  cbn zeta. destruct mode; unfold FrameBuilder.setOperationMode; run_steps;
    rewrite lookup_insert_ne by discriminate; repeat split.
Qed.

(** X18: of two changes of the mode the second decides: after a change to
    one of the three modes the builder, the settings and the I/O manager are
    as if the change before had not been made, and a change made twice leaves
    what it left the first time. *)
Theorem setOperationMode_last_wins (first second : OperationMode) (w : World) :
  (∀ raw, second ≠ InvalidMode raw) →
  state (exec (FrameBuilder.setOperationMode second)
           (exec (FrameBuilder.setOperationMode first) w))
  = state (exec (FrameBuilder.setOperationMode second) w)
  ∧ state (exec (FrameBuilder.setOperationMode first)
             (exec (FrameBuilder.setOperationMode first) w))
    = state (exec (FrameBuilder.setOperationMode first) w).
Proof.
  intros Hmode.
  destruct second as [| | |raw]; [| | |exfalso; exact (Hmode raw eq_refl)];
    destruct first; unfold state, FrameBuilder.setOperationMode; run_steps;
    split; same_world.
Qed.

(** The members and singletons a change of the mode leaves. *)
Lemma setOperationMode_fields (mode : OperationMode) (w : World) :
  let w' := exec (FrameBuilder.setOperationMode mode) w in
  m_opMode w' = mode
  ∧ m_frameParser w' = m_frameParser w
  ∧ m_frame w' = m_frame w
  ∧ m_jsonMap w' = m_jsonMap w
  ∧ m_settings w' = <["operation_mode" := QvMode mode]> (m_settings w)
  ∧ io_startSequence w'
    = match mode with
      | ProjectFile => Frame.frameStart (m_frame w)
      | DeviceSendsJSON | QuickPlot => EmptyString
      | InvalidMode _ => io_startSequence w
      end
  ∧ io_finishSequence w'
    = match mode with
      | ProjectFile => Frame.frameEnd (m_frame w)
      | DeviceSendsJSON | QuickPlot => EmptyString
      | InvalidMode _ => io_finishSequence w
      end
  ∧ csvPlayer_isOpen w' = csvPlayer_isOpen w
  ∧ projectModel_decoderMethod w' = projectModel_decoderMethod w
  ∧ files w' = files w.
Proof.
  cbn zeta. destruct mode; unfold FrameBuilder.setOperationMode; run_steps; repeat split.
Qed.

(** The members and singletons a load that ends with a frame leaves. *)
Lemma loaded_fields_of_load (w : World) (path : QString) (frame : Frame.t) :
  QString_isEmpty path = false →
  outcome_of w path = Loaded frame →
  let w' := exec (loadJsonMap path) w in
  m_opMode w' = m_opMode w
  ∧ m_frameParser w' = m_frameParser w
  ∧ m_frame w' = frame
  ∧ m_jsonMap w' = mkQFile path true
  ∧ m_settings w' = <["json_map_location" := QvString path]> (m_settings w)
  ∧ io_startSequence w'
    = (if decide (m_opMode w = ProjectFile) then Frame.frameStart frame
       else io_startSequence w)
  ∧ io_finishSequence w'
    = (if decide (m_opMode w = ProjectFile) then Frame.frameEnd frame
       else io_finishSequence w)
  ∧ csvPlayer_isOpen w' = csvPlayer_isOpen w
  ∧ projectModel_decoderMethod w' = projectModel_decoderMethod w
  ∧ files w' = files w.
Proof.
  intros Hpath. cbn zeta.
  load_cases w path Hpath; intros Hloaded; try discriminate;
    injection Hloaded as <-; repeat split.
Qed.

(** X19: a valid project and the project mode give the sequences of the
    project to the I/O manager in whichever order they come: the project
    loaded and then the mode chosen, or the mode chosen and then the project
    loaded; both ways end in the same state.  A detour through another mode
    after the load does not lose them: the way back sets them again. *)
Theorem loadJsonMap_and_ProjectFile (w : World) (path : QString) (frame : Frame.t)
    (other : OperationMode) :
  QString_isEmpty path = false →
  outcome_of w path = Loaded frame →
  let load := exec (loadJsonMap path) in
  let choose mode := exec (FrameBuilder.setOperationMode mode) in
  let project w' :=
    m_frame w' = frame
    ∧ io_startSequence w' = Frame.frameStart frame
    ∧ io_finishSequence w' = Frame.frameEnd frame in
  project (choose ProjectFile (load w))
  ∧ project (load (choose ProjectFile w))
  ∧ state (choose ProjectFile (load w)) = state (load (choose ProjectFile w))
  ∧ project (choose ProjectFile (choose other (load w))).
Proof.
  intros Hpath Hloaded. cbv beta zeta.
  pose proof (loaded_fields_of_load w path frame Hpath Hloaded) as L.
  pose proof (setOperationMode_fields ProjectFile (exec (loadJsonMap path) w)) as A.
  pose proof (setOperationMode_fields other (exec (loadJsonMap path) w)) as D.
  pose proof (setOperationMode_fields ProjectFile
                (exec (FrameBuilder.setOperationMode other) (exec (loadJsonMap path) w)))
    as E.
  pose proof (setOperationMode_fields ProjectFile w) as C.
  assert (Hloaded' : outcome_of (exec (FrameBuilder.setOperationMode ProjectFile) w) path
                     = Loaded frame).
  { destruct C as (_ & _ & _ & _ & _ & _ & _ & _ & _ & Hfiles).
    unfold load_outcome in *. rewrite Hfiles. exact Hloaded. }
  pose proof (loaded_fields_of_load
                (exec (FrameBuilder.setOperationMode ProjectFile) w) path frame Hpath Hloaded')
    as B.
  clear Hloaded Hloaded'. cbv beta zeta in L, A, D, E, C, B.
  remember (exec (FrameBuilder.setOperationMode ProjectFile)
              (exec (FrameBuilder.setOperationMode other) (exec (loadJsonMap path) w)))
    as wE eqn:HE. clear HE.
  remember (exec (FrameBuilder.setOperationMode other) (exec (loadJsonMap path) w))
    as wD eqn:HD. clear HD.
  remember (exec (FrameBuilder.setOperationMode ProjectFile) (exec (loadJsonMap path) w))
    as wA eqn:HA. clear HA.
  remember (exec (loadJsonMap path) (exec (FrameBuilder.setOperationMode ProjectFile) w))
    as wB eqn:HB. clear HB.
  remember (exec (FrameBuilder.setOperationMode ProjectFile) w) as wC eqn:HC. clear HC.
  remember (exec (loadJsonMap path) w) as wL eqn:HL. clear HL.
  destruct L as (L1 & L2 & L3 & L4 & L5 & L6 & L7 & L8 & L9 & L10).
  destruct A as (A1 & A2 & A3 & A4 & A5 & A6 & A7 & A8 & A9 & A10).
  destruct D as (D1 & D2 & D3 & D4 & D5 & D6 & D7 & D8 & D9 & D10).
  destruct E as (E1 & E2 & E3 & E4 & E5 & E6 & E7 & E8 & E9 & E10).
  destruct C as (C1 & C2 & C3 & C4 & C5 & C6 & C7 & C8 & C9 & C10).
  destruct B as (B1 & B2 & B3 & B4 & B5 & B6 & B7 & B8 & B9 & B10).
  rewrite C1 in B6, B7. destruct (decide (ProjectFile = ProjectFile)); [|congruence].
  split; [|split; [|split]].
  - rewrite A3, A6, A7, L3. repeat split.
  - rewrite B3, B6, B7. repeat split.
  - unfold state. apply World_ext;
      cbn [m_opMode m_frameParser m_frame m_jsonMap m_settings io_startSequence
           io_finishSequence csvPlayer_isOpen projectModel_decoderMethod files trace
           with_trace]; try congruence.
    rewrite A5, L5, B5, C5. apply insert_insert_ne. discriminate.
  - rewrite E3, E6, E7, D3, L3. repeat split.
Qed.

(** ** Starting the builder *)

Context (OperationMode_toInt : OperationMode → Z).
Context (OperationMode_cast : Z → OperationMode).
Context (QString_toInt : QString → Z).

Local Abbreviation constructor :=
  (FrameBuilder.constructor QJsonDocument_fromJson Frame_read Frame_isValid
     OperationMode_toInt OperationMode_cast QString_toInt).
Local Abbreviation QVariant_toString := (FrameBuilder.QVariant_toString OperationMode_toInt).
Local Abbreviation QVariant_toInt :=
  (FrameBuilder.QVariant_toInt OperationMode_toInt QString_toInt).

(** The constructor, step by step: the members are initialised, the stored
    project is loaded if a path is stored, the stored mode is chosen. *)
Lemma constructor_steps (w : World) :
  exec constructor w
  = let initial :=
      with_jsonMap (mkQFile "" false)
        (with_frame Frame.new (with_frameParser None (with_opMode ProjectFile w))) in
    let path :=
      QVariant_toString (default (QvString "") (m_settings w !! "json_map_location")) in
    let loaded :=
      if negb (QString_isEmpty path) then exec (loadJsonMap path) initial else initial in
    exec (FrameBuilder.setOperationMode
            (OperationMode_cast
               (QVariant_toInt
                  (default (QvMode QuickPlot) (m_settings loaded !! "operation_mode")))))
      loaded.
Proof.
  unfold FrameBuilder.constructor, FrameBuilder.settings_value.
  unfold exec, mbind, M_bind, modify, gets, skip, mret, M_ret. cbv beta iota zeta.
  change (m_settings
            (with_jsonMap (mkQFile "" false)
               (with_frame Frame.new (with_frameParser None (with_opMode ProjectFile w)))))
    with (m_settings w).
  destruct (negb _); [|reflexivity].
  destruct (loadJsonMap _ _) as [[] loaded]. reflexivity.
Qed.

(** What a change of the mode is observed as. *)
Lemma setOperationMode_trace (mode : OperationMode) (w : World) :
  trace (exec (FrameBuilder.setOperationMode mode) w)
  = (trace w
     ++ match mode with
        | ProjectFile =>
            [IO_setFinishSequence (Frame.frameEnd (m_frame w));
             IO_setStartSequence (Frame.frameStart (m_frame w))]
        | DeviceSendsJSON | QuickPlot =>
            [IO_setStartSequence ""; IO_setFinishSequence ""]
        | InvalidMode _ => [QWarning "Invalid operation mode selected" mode]
        end
     ++ [Settings_setValue "operation_mode" (QvMode mode); Emit_operationModeChanged])%list.
Proof.
  destruct mode; unfold FrameBuilder.setOperationMode; run_steps;
    rewrite <- ?app_assoc; reflexivity.
Qed.

(** What a load that ends without a frame leaves and shows. *)
Lemma failed_fields_of_load (w : World) (path : QString) :
  QString_isEmpty path = false →
  (∀ frame, outcome_of w path ≠ Loaded frame) →
  let w' := exec (loadJsonMap path) w in
  m_settings w' !! "json_map_location" = Some (QvString "")
  ∧ isOpen (m_jsonMap w') = false
  ∧ ∃ es, trace w' = (trace w ++ es)%list
          ∧ length (List.filter is_messageBox es) = 1%nat.
Proof.
  intros Hpath. cbn zeta.
  load_cases w path Hpath; intros Hfails;
    try (exfalso; eapply Hfails; reflexivity);
    rewrite lookup_insert_eq, <- ?app_assoc;
    (split; [reflexivity|]); (split; [reflexivity|]);
    eexists; (split; [reflexivity|]); reflexivity.
Qed.

Ltac world_fields :=
  cbn [m_opMode m_frameParser m_frame m_jsonMap m_settings io_startSequence
       io_finishSequence csvPlayer_isOpen projectModel_decoderMethod files trace
       with_opMode with_frameParser with_frame with_jsonMap with_settings
       with_startSequence with_finishSequence with_trace isOpen fileName] in *.

(** X20: a builder that finds no stored path (none at all, or the empty one
    a failed load left) and no stored mode starts in the quick plot mode,
    without parser, project file or frame and with empty sequences; it stores
    the quick plot mode and announces the mode. *)
Theorem constructor_defaults (w : World) :
  OperationMode_cast (OperationMode_toInt QuickPlot) = QuickPlot →
  (m_settings w !! "json_map_location" = None
   ∨ m_settings w !! "json_map_location" = Some (QvString "")) →
  m_settings w !! "operation_mode" = None →
  let w' := exec constructor w in
  m_opMode w' = QuickPlot
  ∧ m_frameParser w' = None
  ∧ m_frame w' = Frame.new
  ∧ m_jsonMap w' = mkQFile "" false
  ∧ io_startSequence w' = ""
  ∧ io_finishSequence w' = ""
  ∧ m_settings w' !! "operation_mode" = Some (QvMode QuickPlot)
  ∧ observed w w'
      [IO_setStartSequence ""; IO_setFinishSequence "";
       Settings_setValue "operation_mode" (QvMode QuickPlot); Emit_operationModeChanged].
Proof.
  intros Hcast Hpath Hmode. cbv zeta. unfold observed. rewrite constructor_steps. cbv zeta.
  replace (QVariant_toString (default (QvString "") (m_settings w !! "json_map_location")))
    with EmptyString by (destruct Hpath as [-> | ->]; reflexivity).
  cbn [QString_isEmpty negb]. world_fields. rewrite Hmode.
  cbn [default from_option id FrameBuilder.QVariant_toInt]. rewrite Hcast.
  set (initial := with_jsonMap _ _).
  destruct (setOperationMode_fields QuickPlot initial)
    as (F1 & F2 & F3 & F4 & F5 & F6 & F7 & _).
  rewrite (setOperationMode_trace QuickPlot initial), F1, F2, F3, F4, F5, F6, F7.
  rewrite lookup_insert_eq. repeat split.
Qed.

(** X21: the mode survives a restart: a builder that finds a mode stored
    (as [setOperationMode] stores it) starts in that mode, whatever project
    path is stored and however its load ends, provided the mode comes back
    from the cast of its own integer.  The parser has to be registered
    anew. *)
Theorem constructor_restores_mode (w : World) (mode : OperationMode) :
  OperationMode_cast (OperationMode_toInt mode) = mode →
  m_settings w !! "operation_mode" = Some (QvMode mode) →
  let w' := exec constructor w in
  m_opMode w' = mode
  ∧ m_settings w' !! "operation_mode" = Some (QvMode mode)
  ∧ m_frameParser w' = None.
Proof.
  intros Hcast Hmode. cbv zeta. rewrite constructor_steps. cbv zeta.
  set (initial := with_jsonMap _ _).
  set (path := QVariant_toString _).
  assert (Hloaded :
            let loaded := if negb (QString_isEmpty path)
                          then exec (loadJsonMap path) initial else initial in
            m_settings loaded !! "operation_mode" = Some (QvMode mode)
            ∧ m_frameParser loaded = None).
  { cbv zeta. destruct (negb (QString_isEmpty path)).
    - destruct (loadJsonMap_fields_kept initial path) as (_ & K2 & K3 & _).
      rewrite K2, K3. split; [exact Hmode|reflexivity].
    - split; [exact Hmode|reflexivity]. }
  cbv zeta in Hloaded.
  remember (if negb (QString_isEmpty path) then exec (loadJsonMap path) initial else initial)
    as loaded eqn:Heq. clear Heq.
  destruct Hloaded as [Hstored Hparser]. rewrite Hstored.
  cbn [default from_option id FrameBuilder.QVariant_toInt]. rewrite Hcast.
  destruct (setOperationMode_fields mode loaded) as (F1 & F2 & _ & _ & F5 & _).
  rewrite F1, F2, F5, lookup_insert_eq. repeat split. exact Hparser.
Qed.

(** X22: a builder that finds the path of a valid project stored starts
    with that project loaded: it holds the frame of the file, the file is
    open and the path stays stored.  With the project mode stored the I/O
    manager has the sequences of the project, with the JSON or the quick plot
    mode stored it has empty sequences. *)
Theorem constructor_loads_stored_project
    (w : World) (path : QString) (frame : Frame.t) (mode : OperationMode) :
  OperationMode_cast (OperationMode_toInt mode) = mode →
  m_settings w !! "operation_mode" = Some (QvMode mode) →
  m_settings w !! "json_map_location" = Some (QvString path) →
  QString_isEmpty path = false →
  outcome_of w path = Loaded frame →
  let w' := exec constructor w in
  m_opMode w' = mode
  ∧ m_frame w' = frame
  ∧ m_jsonMap w' = mkQFile path true
  ∧ m_settings w' !! "json_map_location" = Some (QvString path)
  ∧ io_startSequence w'
    = match mode with
      | DeviceSendsJSON | QuickPlot => EmptyString
      | _ => Frame.frameStart frame
      end
  ∧ io_finishSequence w'
    = match mode with
      | DeviceSendsJSON | QuickPlot => EmptyString
      | _ => Frame.frameEnd frame
      end.
Proof.
  intros Hcast Hmode Hstored Hpath Hloaded. cbv zeta. rewrite constructor_steps. cbv zeta.
  rewrite Hstored. cbn [default from_option id FrameBuilder.QVariant_toString]. rewrite Hpath. cbn [negb].
  set (initial := with_jsonMap _ _).
  assert (Hloaded' : outcome_of initial path = Loaded frame) by exact Hloaded.
  destruct (loaded_fields_of_load initial path frame Hpath Hloaded')
    as (_ & _ & L3 & L4 & L5 & L6 & L7 & _).
  destruct (loadJsonMap_fields_kept initial path) as (_ & _ & K3 & _).
  subst initial. world_fields.
  destruct (decide (ProjectFile = ProjectFile)); [|congruence].
  remember (exec (loadJsonMap path) _) as loaded eqn:Heq. clear Heq.
  rewrite K3, Hmode. cbn [default from_option id FrameBuilder.QVariant_toInt]. rewrite Hcast.
  destruct (setOperationMode_fields mode loaded) as (F1 & _ & F3 & F4 & F5 & F6 & F7 & _).
  rewrite F1, F3, F4, F5, F6, F7, L3, L4, L5, L6, L7.
  rewrite lookup_insert_ne by discriminate. rewrite lookup_insert_eq.
  destruct mode; repeat split.
Qed.

(** X23: a stored project that cannot be loaded bothers the user once: the
    builder that finds its path starts without a project file, shows one
    message box and empties the stored path, so that the builder started next
    with the settings it left loads nothing and shows no message box. *)
Theorem constructor_failed_project_once (w : World) (path : QString) :
  m_settings w !! "json_map_location" = Some (QvString path) →
  QString_isEmpty path = false →
  (∀ frame, outcome_of w path ≠ Loaded frame) →
  let first := exec constructor w in
  let second := exec constructor first in
  isOpen (m_jsonMap first) = false
  ∧ m_settings first !! "json_map_location" = Some (QvString "")
  ∧ (∃ es, observed w first es ∧ length (List.filter is_messageBox es) = 1%nat)
  ∧ isOpen (m_jsonMap second) = false
  ∧ ∃ es, observed first second es ∧ List.filter is_messageBox es = [].
Proof.
  intros Hstored Hpath Hfails.
  assert (Hfirst : let first := exec constructor w in
            isOpen (m_jsonMap first) = false
            ∧ m_settings first !! "json_map_location" = Some (QvString "")
            ∧ ∃ es, observed w first es ∧ length (List.filter is_messageBox es) = 1%nat).
  { cbv zeta. unfold observed. rewrite constructor_steps. cbv zeta.
    rewrite Hstored. cbn [default from_option id FrameBuilder.QVariant_toString]. rewrite Hpath. cbn [negb].
    set (initial := with_jsonMap _ _).
    assert (Hfails' : ∀ frame, outcome_of initial path ≠ Loaded frame) by exact Hfails.
    destruct (failed_fields_of_load initial path Hpath Hfails')
      as (L1 & L2 & es & Hes & Hbox).
    subst initial. world_fields.
    remember (exec (loadJsonMap path) _) as loaded eqn:Heq. clear Heq.
    set (mode := OperationMode_cast _).
    destruct (setOperationMode_fields mode loaded) as (_ & _ & _ & F4 & F5 & _).
    rewrite F4, F5, (setOperationMode_trace mode loaded), Hes.
    rewrite lookup_insert_ne by discriminate.
    split; [exact L2|]. split; [exact L1|].
    eexists. split; [rewrite <- app_assoc; reflexivity|].
    rewrite !List.filter_app, !length_app, Hbox.
    destruct mode; reflexivity. }
  cbv zeta in Hfirst |- *.
  remember (exec constructor w) as first eqn:Heq. clear Heq.
  destruct Hfirst as (Hclosed & Hemptied & Hbox).
  split; [exact Hclosed|]. split; [exact Hemptied|]. split; [exact Hbox|].
  unfold observed. rewrite constructor_steps. cbv zeta.
  rewrite Hemptied. cbn [default from_option id FrameBuilder.QVariant_toString QString_isEmpty negb].
  set (initial := with_jsonMap _ _).
  set (mode := OperationMode_cast _).
  destruct (setOperationMode_fields mode initial) as (_ & _ & _ & F4 & _).
  rewrite F4, (setOperationMode_trace mode initial).
  split; [reflexivity|].
  eexists. split; [reflexivity|]. destruct mode; reflexivity.
Qed.

End FrameBuilderFurther.

(** * The further properties on concrete frames *)

Lemma readData_QuickPlot_keeps_state_witness :
  m_frame (exec (Sample.readData "7,8") (Sample.holding QuickPlot)) = Sample.frame.
Proof.
  exact (proj2 (readData_QuickPlot_keeps_state Sample.empty_object Sample.fromJson
                  Sample.read id id id (Sample.holding QuickPlot) "7,8" eq_refl)).
Defined.

Lemma readData_invalid_mode_witness :
  exec (Sample.readData "10;20;30") (Sample.holding (InvalidMode 7))
  = Sample.holding (InvalidMode 7).
Proof.
  exact (readData_invalid_mode Sample.empty_object Sample.fromJson Sample.read id id id
           (Sample.holding (InvalidMode 7)) "10;20;30" 7 eq_refl).
Defined.

Lemma readData_ProjectFile_twice_witness :
  let once := exec (Sample.readData "10;20;30") (Sample.holding ProjectFile) in
  m_frame (exec (Sample.readData "10;20;30") once) = m_frame once.
Proof.
  exact (proj1 (readData_ProjectFile_twice Sample.empty_object Sample.fromJson Sample.read
                  id id id (Sample.holding ProjectFile) "10;20;30" Sample.parser
                  eq_refl eq_refl eq_refl)).
Defined.

Lemma readData_ProjectFile_unnamed_fields_witness :
  exec (Sample.readData "7") (Sample.holding ProjectFile)
  = with_trace [Emit_frameChanged Sample.frame] (Sample.holding ProjectFile).
Proof.
  apply (readData_ProjectFile_unnamed_fields Sample.empty_object Sample.fromJson Sample.read
           id id id (Sample.holding ProjectFile) "7" Sample.parser eq_refl eq_refl eq_refl).
  right. repeat constructor; unfold names_field; cbn; lia.
Defined.

Lemma readData_ProjectFile_blank_line_witness :
  exec (Sample.readData "   ") (Sample.project true)
  = published Sample.frame (Sample.project true).
Proof.
  exact (proj1 (readData_ProjectFile_blank_line Sample.empty_object Sample.fromJson
                  Sample.read id id id (Sample.project true) "   " Sample.parser
                  eq_refl eq_refl eq_refl eq_refl eq_refl eq_refl)).
Defined.

Lemma readData_QuickPlot_counts_witness :
  ∃ frame,
    observed (Sample.started QuickPlot)
      (exec (Sample.readData "7,8,9") (Sample.started QuickPlot)) [Emit_frameChanged frame]
    ∧ length (Frame.m_groups frame) = 3%nat
    ∧ Forall (λ group, length (Group.m_datasets group) = 3%nat) (Frame.m_groups frame).
Proof.
  exact (readData_QuickPlot_counts Sample.empty_object Sample.fromJson Sample.read id id id
           (Sample.started QuickPlot) "7,8,9" eq_refl eq_refl).
Defined.

Lemma readData_QuickPlot_values_witness :
  ∃ frame,
    observed (Sample.started QuickPlot)
      (exec (Sample.readData "7, 8 ,9") (Sample.started QuickPlot)) [Emit_frameChanged frame]
    ∧ Forall (λ group, Dataset.m_value <$> Group.m_datasets group = ["7"; " 8 "; "9"])
        (Frame.m_groups frame).
Proof.
  destruct (readData_QuickPlot_values Sample.empty_object Sample.fromJson Sample.read
              id id id (Sample.started QuickPlot) "7, 8 ,9" eq_refl eq_refl)
    as (frame & Hemitted & Hvalues & _).
  exists frame. split; [exact Hemitted|exact Hvalues].
Defined.


Lemma frameReceived_QuickPlot_witness :
  exec (Sample.frameReceived ["7"; ""; "7,8"]) (Sample.started QuickPlot)
  = with_trace
      [Emit_frameChanged (quickplot_frame id "7"); Emit_frameChanged (quickplot_frame id "7,8")]
      (Sample.started QuickPlot).
Proof.
  exact (frameReceived_QuickPlot Sample.empty_object Sample.fromJson Sample.read id id id
           ["7"; ""; "7,8"] (Sample.started QuickPlot) eq_refl).
Defined.

Lemma loadJsonMap_loaded_witness :
  let w' := exec (Sample.loadJsonMap "weather.json") (Sample.started ProjectFile) in
  m_frame w' = Sample.frame
  ∧ m_jsonMap w' = mkQFile "weather.json" true
  ∧ io_startSequence w' = "/*"
  ∧ io_finishSequence w' = "*/".
Proof.
  destruct (loadJsonMap_loaded Sample.fromJson Sample.read Sample.isValid
              (Sample.started ProjectFile) "weather.json" Sample.frame eq_refl eq_refl)
    as (Hframe & Hfile & _ & Hstart & Hfinish & _).
  split; [exact Hframe|]. split; [exact Hfile|]. split; [exact Hstart|exact Hfinish].
Defined.

Lemma loadJsonMap_failed_witness :
  let w' := exec (Sample.loadJsonMap "notes.txt") (Sample.holding ProjectFile) in
  m_frame w' = Frame.new
  ∧ io_startSequence w' = "/*"
  ∧ observed (Sample.holding ProjectFile) w'
      [Emit_jsonFileMapChanged;
       Settings_setValue "json_map_location" (QvString "");
       ShowMessageBox "JSON parse error" "illegal value";
       Emit_jsonFileMapChanged].
Proof.
  destruct (loadJsonMap_failed Sample.fromJson Sample.read Sample.isValid
              (Sample.holding ProjectFile) "notes.txt" eq_refl)
    as ((_ & _ & Hstart & _) & Hframe & Htrace).
  split; [exact Hframe|]. split; [exact Hstart|exact Htrace].
Defined.

Lemma loadJsonMap_stored_path_witness :
  m_settings (exec (Sample.loadJsonMap "weather.json") (Sample.started QuickPlot))
    !! "json_map_location" = Some (QvString "weather.json")
  ∧ m_settings (exec (Sample.loadJsonMap "empty.json") (Sample.holding QuickPlot))
      !! "json_map_location" = Some (QvString "").
Proof.
  split.
  - exact (proj1 (proj2 (proj2 (loadJsonMap_stored_path Sample.fromJson Sample.read
                                  Sample.isValid (Sample.started QuickPlot) "weather.json"
                                  eq_refl)))).
  - exact (proj1 (proj2 (proj2 (loadJsonMap_stored_path Sample.fromJson Sample.read
                                  Sample.isValid (Sample.holding QuickPlot) "empty.json"
                                  eq_refl)))).
Defined.

Lemma setOperationMode_last_wins_witness :
  state (exec (FrameBuilder.setOperationMode ProjectFile)
           (exec (FrameBuilder.setOperationMode QuickPlot) (Sample.holding DeviceSendsJSON)))
  = state (exec (FrameBuilder.setOperationMode ProjectFile) (Sample.holding DeviceSendsJSON)).
Proof.
  apply (setOperationMode_last_wins QuickPlot ProjectFile (Sample.holding DeviceSendsJSON)).
  intros raw. discriminate.
Defined.

Lemma loadJsonMap_and_ProjectFile_witness :
  let w' := exec (FrameBuilder.setOperationMode ProjectFile)
              (exec (Sample.loadJsonMap "weather.json") (Sample.started QuickPlot)) in
  m_frame w' = Sample.frame ∧ io_startSequence w' = "/*" ∧ io_finishSequence w' = "*/".
Proof.
  exact (proj1 (loadJsonMap_and_ProjectFile Sample.fromJson Sample.read Sample.isValid
                  (Sample.started QuickPlot) "weather.json" Sample.frame DeviceSendsJSON
                  eq_refl eq_refl)).
Defined.

Lemma constructor_defaults_witness :
  m_opMode (exec Sample.constructor (Sample.before ∅)) = QuickPlot.
Proof.
  exact (proj1 (constructor_defaults Sample.fromJson Sample.read Sample.isValid
                  Sample.toInt Sample.cast (λ _, 0) (Sample.before ∅)
                  eq_refl (or_introl eq_refl) eq_refl)).
Defined.

Lemma constructor_restores_mode_witness :
  m_opMode
    (exec Sample.constructor
       (Sample.before
          (m_settings (exec (FrameBuilder.setOperationMode DeviceSendsJSON)
                         (Sample.started QuickPlot)))))
  = DeviceSendsJSON.
Proof.
  apply (constructor_restores_mode Sample.fromJson Sample.read Sample.isValid
           Sample.toInt Sample.cast (λ _, 0)
           (Sample.before
              (m_settings (exec (FrameBuilder.setOperationMode DeviceSendsJSON)
                             (Sample.started QuickPlot))))
           DeviceSendsJSON eq_refl).
  apply lookup_insert_eq.
Defined.

Lemma constructor_loads_stored_project_witness :
  let settings :=
    <["operation_mode" := QvMode ProjectFile]>
      ({["json_map_location" := QvString "weather.json"]} : gmap string QVariant) in
  let w' := exec Sample.constructor (Sample.before settings) in
  m_opMode w' = ProjectFile ∧ m_frame w' = Sample.frame.
Proof.
  intros settings.
  assert (Hmode : settings !! "operation_mode" = Some (QvMode ProjectFile))
    by apply lookup_insert_eq.
  assert (Hpath : settings !! "json_map_location" = Some (QvString "weather.json")).
  { unfold settings. rewrite lookup_insert_ne by discriminate. apply lookup_singleton_eq. }
  destruct (constructor_loads_stored_project Sample.fromJson Sample.read Sample.isValid
              Sample.toInt Sample.cast (λ _, 0) (Sample.before settings) "weather.json"
              Sample.frame ProjectFile eq_refl Hmode Hpath eq_refl eq_refl)
    as (Hopmode & Hframe & _).
  split; [exact Hopmode|exact Hframe].
Defined.

Lemma constructor_failed_project_once_witness :
  let settings : gmap string QVariant := {["json_map_location" := QvString "missing.json"]} in
  m_settings (exec Sample.constructor (Sample.before settings)) !! "json_map_location"
  = Some (QvString "").
Proof.
  intros settings.
  assert (Hpath : settings !! "json_map_location" = Some (QvString "missing.json"))
    by apply lookup_singleton_eq.
  assert (Hfails : ∀ frame,
             load_outcome Sample.fromJson Sample.read Sample.isValid
               (Sample.before settings) "missing.json" ≠ Loaded frame)
    by (intros frame; discriminate).
  exact (proj1 (proj2 (constructor_failed_project_once Sample.fromJson Sample.read
                         Sample.isValid Sample.toInt Sample.cast (λ _, 0)
                         (Sample.before settings) "missing.json" Hpath eq_refl Hfails))).
Defined.
